(** * A shallow embedding of the RAG engine (rag_engine.py) and of the
      upload loop of app.py

    The engine is a thin orchestration layer over external collaborators: a
    PDF loader, a text splitter, an embedding provider, a persisted vector
    store and a generative model.  The collaborators are not part of the
    program; they appear here as the fields of an environment record [Env]
    (what each external call answers, or the fault it raises) and as a small
    model of the persisted store: a directory holds an ordered collection of
    index entries, adding appends, and deleting by filter removes the matching
    entries.  Everything the engine itself does (guards, try/except,
    metadata stamping, message formatting, pipeline wiring) is transcribed
    from the source. *)

From Stdlib Require Import Ascii DecimalString.
From stdpp Require Import gmap strings list.


(** ** Python values used by the engine *)

(** Values a metadata dictionary holds: text ([source]) or integers ([page]). *)
Inductive meta_value : Type :=
  | MStr (s : string)
  | MInt (n : Z).

#[global] Instance meta_value_eq_dec : EqDecision meta_value.
Proof. solve_decision. Defined.

Abbreviation Metadata := (gmap string meta_value).

(** langchain's [Document]: page text and its metadata dictionary. *)
Record Document : Type := mkDocument {
  page_content : string;
  metadata : Metadata
}.

(** An embedding vector; the engine never looks inside one. *)
Definition Vector : Type := list Z.

(** One persisted triple of the vector store.  A stored entry may lack
    metadata altogether (the store then reports [None] for it). *)
Record IndexEntry : Type := mkEntry {
  entry_text : string;
  entry_metadata : option Metadata;
  entry_embedding : Vector
}.

Abbreviation Collection := (list IndexEntry).

(** Conversation messages (langchain_core.messages). *)
Inductive message : Type :=
  | SystemMessage (content : string)
  | HumanMessage (content : string)
  | AIMessage (content : string).

(** ** Configuration (module level constants of rag_engine.py) *)

Definition PERSIST_DIRECTORY : string := "db".
Definition EMBEDDING_MODEL_NAME : string := "all-MiniLM-L6-v2".
Definition LLM_MODEL : string := "llama3".

(** ** Exceptions and state *)

(** What a Python call produces: a value, or an exception [e] of class
    [Exception], kept as its text [str(e)]. *)
Inductive outcome (A : Type) : Type :=
  | Return (a : A)
  | Raise (e : string).
Arguments Return {A} a.
Arguments Raise {A} e.

(** A client object bound to a persisted directory ([Chroma(...)]).  The
    entries themselves live in the directory, not in the client. *)
Record Chroma : Type := mkChroma {
  persist_directory : string
}.

(** Calls that reach the generative model or the similarity search, in the
    order they were made. *)
Inductive call : Type :=
  | LlmCall (model : string) (prompt : list message)
  | SearchCall (directory : string) (search_type : string) (k : nat)
      (query : string).

(** The state the engine works on: its own attribute [self.vector_store]
    ([None] or a client), the directories of the file system that hold a
    persisted store, and the log of model and search calls. *)
Record World : Type := mkWorld {
  vector_store : option Chroma;
  fs : gmap string Collection;
  calls : list call
}.

(** The external collaborators, as what they answer. *)
Record Env : Type := mkEnv {
  (** [PyPDFLoader(path).load()] *)
  pdf_load : string -> outcome (list Document);
  (** [RecursiveCharacterTextSplitter(chunk_size, chunk_overlap)] on one text *)
  split_text : nat -> nat -> string -> list string;
  (** the embedding provider *)
  embed : string -> Vector;
  (** the fault, if any, the store raises when handed these chunks *)
  add_fault : list Document -> option string;
  (** the fault, if any, the store raises on [get()] *)
  get_fault : option string;
  (** the fault, if any, the store raises on [delete(where=...)] *)
  delete_fault : option string;
  (** the fault, if any, [shutil.rmtree] raises *)
  rmtree_fault : option string;
  (** the generative model: its completion of a prompt, or a fault *)
  generate : string -> list message -> outcome string;
  (** nearest-neighbour search of the store: the entries of a collection
      ranked for a query, at most [k] of them, or a fault *)
  similarity_search : Collection -> string -> nat -> outcome (list Document);
  (** whether the class of the client defines [__len__] (the number of
      entries of its store): Python then takes a client over an empty store
      for false in a condition; a client is true otherwise *)
  client_defines_len : bool
}.

(** Computations of the engine: state passing with exceptions.  State
    changes made before an exception is raised stay, as in Python. *)
Definition M (A : Type) : Type := World -> outcome A * World.

Definition ret {A} (a : A) : M A := fun w => (Return a, w).

Definition raise {A} (e : string) : M A := fun w => (Raise e, w).

Definition bind {A B} (m : M A) (k : A -> M B) : M B :=
  fun w =>
    match m w with
    | (Return a, w') => k a w'
    | (Raise e, w') => (Raise e, w')
    end.

(** [try: body / except Exception as e: handler e] *)
Definition try_except {A} (body : M A) (handler : string -> M A) : M A :=
  fun w =>
    match body w with
    | (Return a, w') => (Return a, w')
    | (Raise e, w') => handler e w'
    end.

Definition lift {A} (o : outcome A) : M A := fun w => (o, w).

Declare Scope py_scope.
Delimit Scope py_scope with py.
Notation "x <- m ;; k" := (bind m (fun x => k))
  (at level 100, m at next level, right associativity) : py_scope.
Notation "m ;;; k" := (bind m (fun _ => k))
  (at level 100, right associativity) : py_scope.
Local Open Scope py_scope.

(** [for x in xs: body x], stopping at the first exception. *)
Fixpoint for_each {A} (xs : list A) (body : A -> M unit) : M unit :=
  match xs with
  | [] => ret tt
  | x :: rest => body x ;;; for_each rest body
  end.

(** A loop that threads an accumulator through its body. *)
Fixpoint for_fold {A B} (xs : list A) (acc : B) (body : B -> A -> M B) : M B :=
  match xs with
  | [] => ret acc
  | x :: rest => acc' <- body acc x ;; for_fold rest acc' body
  end.

Definition get_vector_store : M (option Chroma) :=
  fun w => (Return (vector_store w), w).

Definition set_vector_store (v : option Chroma) : M unit :=
  fun w => (Return tt, mkWorld v (fs w) (calls w)).

Definition log_call (c : call) : M unit :=
  fun w => (Return tt, mkWorld (vector_store w) (fs w) (calls w ++ [c])).

(** ** Python helpers *)

(** [str(n)] for a length. *)
Definition str_of_nat (n : nat) : string :=
  NilEmpty.string_of_uint (Nat.to_uint n).

(** Truth value of an optional string: [None] and the empty string are
    false. *)
Definition truthy_str (s : option string) : bool :=
  match s with
  | None => false
  | Some EmptyString => false
  | Some _ => true
  end.

(** How an f-string renders an optional string. *)
Definition format_opt (s : option string) : string :=
  match s with
  | None => "None"
  | Some t => t
  end.

Fixpoint has_slash (p : string) : bool :=
  match p with
  | EmptyString => false
  | String c rest => if Ascii.eqb c "/"%char then true else has_slash rest
  end.

(** [os.path.basename] (posixpath): what follows the last ['/'] of [p]. *)
Fixpoint basename (p : string) : string :=
  match p with
  | EmptyString => EmptyString
  | String c rest =>
      if has_slash rest then basename rest
      else if Ascii.eqb c "/"%char then rest
      else String c rest
  end.

(** [os.path.basename] applied to a metadata value: anything but text is a
    [TypeError]. *)
Definition os_path_basename (v : meta_value) : M string :=
  match v with
  | MStr p => ret (basename p)
  | MInt _ => raise "expected str, bytes or os.PathLike object, not int"
  end.

(** ** The external store and file system *)

(** The collection persisted under a directory; a missing directory holds
    nothing. *)
Definition stored (d : string) (files : gmap string Collection) : Collection :=
  default [] (files !! d).

Definition os_path_exists (p : string) : M bool :=
  fun w => (Return (bool_decide (is_Some (fs w !! p))), w).

(** The entry the store keeps for a chunk.  A chunk with an empty metadata
    dictionary is stored without metadata. *)
Definition entry_of (env : Env) (c : Document) : IndexEntry :=
  mkEntry (page_content c)
          (if decide (metadata c = ∅) then None else Some (metadata c))
          (embed env (page_content c)).

Definition append_entries (env : Env) (d : string) (chunks : list Document) : M unit :=
  match add_fault env chunks with
  | Some e => raise e
  | None =>
      fun w =>
        (Return tt,
         mkWorld (vector_store w)
                 (<[d := stored d (fs w) ++ map (entry_of env) chunks]> (fs w))
                 (calls w))
  end.

(** [Chroma(persist_directory=d, embedding_function=...)]: opens a client. *)
Definition Chroma_open (d : string) : M Chroma := ret (mkChroma d).

(** [Chroma.from_documents(documents, embedding, persist_directory)]: adds the
    chunks to the store persisted under the directory (created when missing)
    and answers a client bound to it. *)
Definition Chroma_from_documents (env : Env) (chunks : list Document)
    (d : string) : M Chroma :=
  append_entries env d chunks ;;; ret (mkChroma d).

(** [store.add_documents(chunks)] *)
Definition add_documents (env : Env) (h : Chroma) (chunks : list Document) : M unit :=
  append_entries env (persist_directory h) chunks.

(** What [store.get()] answers: a dictionary with, among others, the texts
    and the metadata of every entry. *)
Record GetResult : Type := mkGetResult {
  documents : list string;
  metadatas : option (list (option Metadata))
}.

Definition Chroma_get (env : Env) (h : Chroma) : M GetResult :=
  match get_fault env with
  | Some e => raise e
  | None =>
      fun w =>
        let c := stored (persist_directory h) (fs w) in
        (Return (mkGetResult (map entry_text c) (Some (map entry_metadata c))), w)
  end.

(** An entry matches the filter [{key: value}] when its metadata maps the
    key to that value. *)
Definition matches_where (key : string) (value : meta_value) (e : IndexEntry) : bool :=
  match entry_metadata e with
  | Some meta => bool_decide (meta !! key = Some value)
  | None => false
  end.

(** [store.delete(where={key: value})] *)
Definition Chroma_delete_where (env : Env) (h : Chroma) (key : string)
    (value : meta_value) : M unit :=
  match delete_fault env with
  | Some e => raise e
  | None =>
      fun w =>
        let d := persist_directory h in
        (Return tt,
         mkWorld (vector_store w)
                 (<[d := List.filter (fun e => negb (matches_where key value e))
                           (stored d (fs w))]> (fs w))
                 (calls w))
  end.

(** The client [self.vector_store] when the attribute tests true in a
    condition ([if not self.vector_store: ...] is the other case): [None]
    tests false, and so does a client over an empty store when its class
    defines [__len__]. *)
Definition live_client (env : Env) (w : World) : option Chroma :=
  match vector_store w with
  | Some h =>
      match stored (persist_directory h) (fs w) with
      | [] => if client_defines_len env then None else Some h
      | _ :: _ => Some h
      end
  | None => None
  end.

Definition get_live_vector_store (env : Env) : M (option Chroma) :=
  fun w => (Return (live_client env w), w).

(** [shutil.rmtree(p)]: a fault leaves the directory in place. *)
Definition shutil_rmtree (env : Env) (p : string) : M unit :=
  match rmtree_fault env with
  | Some e => raise e
  | None => fun w => (Return tt, mkWorld (vector_store w) (delete p (fs w)) (calls w))
  end.

(** [text_splitter.split_documents(documents)]: every chunk of a page
    carries a copy of the page's metadata. *)
Definition split_documents (env : Env) (chunk_size chunk_overlap : nat)
    (docs : list Document) : list Document :=
  flat_map
    (fun d => map (fun t => mkDocument t (metadata d))
                  (split_text env chunk_size chunk_overlap (page_content d)))
    docs.

(** ** RagEngine *)

(** [RagEngine._init_vector_store] *)
Definition _init_vector_store : M unit :=
  ex <- os_path_exists PERSIST_DIRECTORY ;;
  if ex then
    h <- Chroma_open PERSIST_DIRECTORY ;;
    set_vector_store (Some h)
  else
    set_vector_store None.

(** [RagEngine.__init__] *)
Definition __init__ : M unit :=
  set_vector_store None ;;;
  _init_vector_store.

(** The loop of [ingest_pdf] that overwrites the metadata of the pages. *)
Definition stamp_source (original_filename : option string) (doc : Document) : Document :=
  if truthy_str original_filename then
    mkDocument (page_content doc)
               (<["source" := MStr (format_opt original_filename)]> (metadata doc))
  else doc.

Definition ingest_ok_message (n : nat) (original_filename : option string) : string :=
  "Procesado correctamente: " +:+ str_of_nat n +:+ " fragmentos de '"
    +:+ format_opt original_filename +:+ "'.".

(** [RagEngine.ingest_pdf] *)
Definition ingest_pdf (env : Env) (file_path : string)
    (original_filename : option string) : M string :=
  try_except
    (documents <- lift (pdf_load env file_path) ;;
     let documents := map (stamp_source original_filename) documents in
     let chunks := split_documents env 1000 200 documents in
     vs <- get_vector_store ;;
     match vs with
     | None =>
         h <- Chroma_from_documents env chunks PERSIST_DIRECTORY ;;
         set_vector_store (Some h)
     | Some h => add_documents env h chunks
     end ;;;
     ret (ingest_ok_message (length chunks) original_filename))
    (fun e => ret ("Error al procesar PDF: " +:+ e)).

(** The body of the loop of [get_ingested_files]. *)
Definition add_source (unique_files : gset string) (meta : option Metadata)
    : M (gset string) :=
  match meta with
  | Some m =>
      if decide (m = ∅) then ret unique_files
      else
        match m !! "source" with
        | Some v => f <- os_path_basename v ;; ret ({[f]} ∪ unique_files)
        | None => ret unique_files
        end
  | None => ret unique_files
  end.

(** [RagEngine.get_ingested_files]; [list(unique_files)] is the elements
    of the set in some order. *)
Definition get_ingested_files (env : Env) : M (list string) :=
  vs <- get_live_vector_store env ;;
  match vs with
  | None => ret []
  | Some h =>
      try_except
        (data <- Chroma_get env h ;;
         match metadatas data with
         | None => ret []
         | Some metas =>
             unique_files <- for_fold metas (∅ : gset string) add_source ;;
             ret (elements unique_files)
         end)
        (fun _ => ret [])
  end.

Definition delete_ok_message (filename : string) : string :=
  "Archivo '" +:+ filename +:+ "' eliminado de la memoria.".

(** [RagEngine.delete_file] *)
Definition delete_file (env : Env) (filename : string) : M string :=
  vs <- get_live_vector_store env ;;
  match vs with
  | None => ret "Error: Base de datos no inicializada."
  | Some h =>
      try_except
        (Chroma_delete_where env h "source" (MStr filename) ;;;
         ret (delete_ok_message filename))
        (fun e => ret ("Error al eliminar archivo: " +:+ e))
  end.

(** [RagEngine.clear_database] *)
Definition clear_database (env : Env) : M string :=
  ex <- os_path_exists PERSIST_DIRECTORY ;;
  if ex then
    try_except
      (set_vector_store None ;;;
       shutil_rmtree env PERSIST_DIRECTORY ;;;
       ret "Base de datos borrada correctamente.")
      (fun e => ret ("Error al borrar base de datos: " +:+ e))
  else ret "La base de datos ya estaba vacía.".

(** ** The answer pipeline built by [get_chain] *)

(** A runnable of the chain library: a step from an input to an output that
    may call the collaborators. *)
Definition Runnable (A B : Type) : Type := A -> M B.

(** [r1 | r2] *)
Definition pipe {A B C} (r1 : Runnable A B) (r2 : Runnable B C) : Runnable A C :=
  fun a => b <- r1 a ;; r2 b.

Notation "r1 |> r2" := (pipe r1 r2) (at level 61, left associativity) : py_scope.

(** [RunnableLambda(f)] *)
Definition RunnableLambda {A B} (f : A -> B) : Runnable A B :=
  fun a => ret (f a).

(** The dictionary the surface hands to [invoke]. *)
Record ChainInput : Type := mkChainInput {
  input : string;
  chat_history : list message
}.

(** The same dictionary once [RunnablePassthrough.assign] has added the key
    [context]. *)
Record WithContext : Type := mkWithContext {
  passthrough : ChainInput;
  context : string
}.

(** [RunnablePassthrough.assign(context=r)] *)
Definition RunnablePassthrough_assign_context (r : Runnable ChainInput string)
    : Runnable ChainInput WithContext :=
  fun x => c <- r x ;; ret (mkWithContext x c).

(** [Ollama(model=...)] used as a runnable: one call of the model. *)
Definition Ollama (env : Env) (model : string) : Runnable (list message) string :=
  fun prompt =>
    log_call (LlmCall model prompt) ;;;
    lift (generate env model prompt).

(** [StrOutputParser()]: the text of the model is passed on as it is. *)
Definition StrOutputParser : Runnable string string :=
  fun text => ret text.

(** [store.as_retriever(search_type=..., search_kwargs={"k": k})] *)
Definition as_retriever (env : Env) (h : Chroma) (search_type : string) (k : nat)
    : Runnable string (list Document) :=
  fun query =>
    log_call (SearchCall (persist_directory h) search_type k query) ;;;
    fun w =>
      (similarity_search env (stored (persist_directory h) (fs w)) query k, w).

Definition nl : string := String "010" EmptyString.

Definition contextualize_q_system_prompt : string :=
  "Dado un historial de chat y la última pregunta del usuario " +:+ nl +:+
  "        (que podría hacer referencia al contexto del historial), formula una pregunta independiente " +:+ nl +:+
  "        que pueda entenderse sin el historial. NO la respondas, solo re-formúlala si es necesario " +:+ nl +:+
  "        o devuélvela tal cual si ya es clara.".

(** The prompt template of the reformulation step, filled in. *)
Definition contextualize_q_prompt : Runnable ChainInput (list message) :=
  fun x =>
    ret ([SystemMessage contextualize_q_system_prompt]
           ++ chat_history x
           ++ [HumanMessage (input x)]).

(** The system text of the answer step; the retrieved context takes the
    place of the template variable that ends it. *)
Definition qa_system_prompt (context : string) : string :=
  "Eres un asistente experto para tareas de preguntas y respuestas. " +:+ nl +:+
  "        Usa los siguientes fragmentos de contexto recuperado para responder a la pregunta. " +:+ nl +:+
  "        Si no sabes la respuesta, di simplemente que no lo sabes. " +:+ nl +:+
  "        Usa un máximo de tres oraciones y mantén la respuesta concisa." +:+ nl +:+
  "        RESPONDE SIEMPRE EN ESPAÑOL." +:+ nl +:+
  "        " +:+ nl +:+
  "        " +:+ context.

(** The prompt template of the answer step, filled in. *)
Definition qa_prompt : Runnable WithContext (list message) :=
  fun x =>
    ret ([SystemMessage (qa_system_prompt (context x))]
           ++ chat_history (passthrough x)
           ++ [HumanMessage (input (passthrough x))]).

Definition format_docs (docs : list Document) : string :=
  String.concat (nl +:+ nl) (map page_content docs).

Definition history_aware_retriever (env : Env) (h : Chroma)
    : Runnable ChainInput (list Document) :=
  contextualize_q_prompt
    |> Ollama env LLM_MODEL
    |> StrOutputParser
    |> as_retriever env h "similarity" 4.

Definition rag_chain (env : Env) (h : Chroma) : Runnable ChainInput string :=
  RunnablePassthrough_assign_context
      (history_aware_retriever env h |> RunnableLambda format_docs)
    |> qa_prompt
    |> Ollama env LLM_MODEL
    |> StrOutputParser.

(** [RagEngine.get_chain] *)
Definition get_chain (env : Env) : M (option (Runnable ChainInput string)) :=
  vs <- get_live_vector_store env ;;
  match vs with
  | None => ret None
  | Some h => ret (Some (rag_chain env h))
  end.

(** ** The upload loop of app.py *)

(** An uploaded file: its user-facing name, and the path of the temporary
    copy the loop writes before it calls the engine. *)
Record UploadedFile : Type := mkUploadedFile {
  name : string;
  tmp_path : string
}.

Definition upload_loop (env : Env) (uploaded_files : list UploadedFile) : M unit :=
  for_each uploaded_files
    (fun file =>
       ingest_pdf env (tmp_path file) (Some (name file)) ;;;
       ret tt).

(** ** Vocabulary of the statements *)

(** The [source] value of a metadata dictionary, when it has one. *)
Definition source_of_meta (meta : option Metadata) : option meta_value :=
  match meta with
  | Some m => m !! "source"
  | None => None
  end.

Definition source_of (e : IndexEntry) : option meta_value :=
  source_of_meta (entry_metadata e).

(** The directory the engine reads and writes: the one its client is bound
    to, or the configured one while it has no client. *)
Definition target_directory (w : World) : string :=
  match vector_store w with
  | Some h => persist_directory h
  | None => PERSIST_DIRECTORY
  end.

(** The index entries of the store at this moment. *)
Definition indexed (w : World) : Collection :=
  stored (target_directory w) (fs w).

(** The chunks [ingest_pdf] hands to the store for the pages it loaded. *)
Definition chunks_of (env : Env) (original_filename : option string)
    (docs : list Document) : list Document :=
  split_documents env 1000 200 (map (stamp_source original_filename) docs).

Definition ingest_error_message (e : string) : string :=
  "Error al procesar PDF: " +:+ e.

(** The messages the reformulation step sends to the model. *)
Definition reformulation_messages (x : ChainInput) : list message :=
  SystemMessage contextualize_q_system_prompt
    :: chat_history x ++ [HumanMessage (input x)].

(** The messages the answer step sends to the model for a context block. *)
Definition answer_messages (x : ChainInput) (context : string) : list message :=
  SystemMessage (qa_system_prompt context)
    :: chat_history x ++ [HumanMessage (input x)].

(** Every [source] value is text, as the loader and the stamping loop
    write it. *)
Definition text_source (meta : option Metadata) : bool :=
  match source_of_meta meta with
  | Some (MInt _) => false
  | _ => true
  end.

(** The file names a list of metadata dictionaries stands for. *)
Fixpoint listed (metas : list (option Metadata)) : gset string :=
  match metas with
  | [] => ∅
  | meta :: rest =>
      match source_of_meta meta with
      | Some (MStr p) => {[basename p]} ∪ listed rest
      | _ => listed rest
      end
  end.

(** The engine as it stands right after construction over a file system. *)
Definition boot (files : gmap string Collection) : World :=
  snd (__init__ (mkWorld None files [])).

(** ** A small concrete installation

    One readable one-page PDF, uploaded twice to two temporary files, one
    PDF without any text, and paths that are no PDF; a splitter that keeps a
    short page as one chunk and yields nothing for an empty page; a store
    that takes every batch. *)

Definition manual_tmp : string := "/tmp/tmpab12.pdf".
Definition manual_tmp_again : string := "/tmp/tmpef56.pdf".
Definition scan_tmp : string := "/tmp/tmpcd34.pdf".

(** A page as the loader produces it: [source] is the path it was given. *)
Definition loaded_page (path text : string) (n : Z) : Document :=
  mkDocument text (<["source" := MStr path]> (<["page" := MInt n]> ∅)).

Definition sample_load (path : string) : outcome (list Document) :=
  if String.eqb path manual_tmp || String.eqb path manual_tmp_again then
    Return [loaded_page path "Compression reduces dynamic range." 0]
  else if String.eqb path scan_tmp then
    Return [loaded_page path EmptyString 0]
  else Raise "Invalid file path".

Definition sample_split (chunk_size chunk_overlap : nat) (text : string) : list string :=
  match text with
  | EmptyString => []
  | _ => [text]
  end.

Definition entry_document (e : IndexEntry) : Document :=
  mkDocument (entry_text e) (default ∅ (entry_metadata e)).

(** The sample installation; [rm] is the fault of [shutil.rmtree], if any. *)
Definition sample_env (rm : option string) : Env :=
  {| pdf_load := sample_load;
     split_text := sample_split;
     embed := fun _ => [];
     add_fault := fun _ => None;
     get_fault := None;
     delete_fault := None;
     rmtree_fault := rm;
     generate := fun _ prompt =>
       match prompt with
       | SystemMessage s :: HumanMessage q :: _ =>
           if String.eqb s contextualize_q_system_prompt
           then Return ("standalone: " +:+ q)
           else Return "No lo sé."
       | _ => Return "No lo sé."
       end;
     similarity_search := fun c _ k => Return (take k (map entry_document c));
     client_defines_len := false |}.

(** First run, no persisted directory. *)
Definition fresh : World := boot ∅.

(** After [ingest_pdf(manual_tmp)], called without a file name. *)
Definition after_unnamed_ingest : World :=
  snd (ingest_pdf (sample_env None) manual_tmp None fresh).

(** After [ingest_pdf(manual_tmp, "manual.pdf")]. *)
Definition after_ingest : World :=
  snd (ingest_pdf (sample_env None) manual_tmp (Some "manual.pdf") fresh).

(** After a [clear_database] whose [rmtree] failed. *)
Definition after_failed_clear : World :=
  snd (clear_database (sample_env (Some "Permission denied")) after_ingest).

(** ** The claims of the specification that the code does not meet, as the
    specification words them *)

(** The listing is the set of the distinct [source] values of the store. *)
Definition listing_is_the_sources (env : Env) (w : World) : Prop :=
  forall files, fst (get_ingested_files env w) = Return files ->
    NoDup files /\
    forall s, s ∈ files <-> exists e, e ∈ indexed w /\ source_of e = Some (MStr s).

(** Every entry a call creates carries the file name it was given, and
    never the path of the temporary file. *)
Definition stamped_with_the_name (env : Env) (file_path : string)
    (original_filename : option string) : Prop :=
  forall docs e,
    pdf_load env file_path = Return docs ->
    e ∈ map (entry_of env) (chunks_of env original_filename docs) ->
    source_of e = MStr <$> original_filename /\
    source_of e <> Some (MStr file_path).

(** [get_chain] answers nothing exactly when no document is indexed. *)
Definition absent_iff_nothing_indexed (env : Env) (w : World) : Prop :=
  fst (get_chain env w) = Return None <-> indexed w = [].

(** No index entry of the store has this file name as its [source]. *)
Definition never_ingested (filename : string) (w : World) : bool :=
  negb (existsb (matches_where "source" (MStr filename)) (indexed w)).



(** ** The chat view of app.py *)

(** One entry of [st.session_state.messages]. *)
Record ChatMessage : Type := mkChatMessage {
  role : string;
  content : string
}.

(** The input area: a submitted prompt is appended as a user message. *)
Definition chat_submit (prompt : option string) (messages : list ChatMessage)
    : list ChatMessage :=
  if truthy_str prompt then
    messages ++ [mkChatMessage "user" (format_opt prompt)]
  else messages.

(** The history bridge: a stored message as the chain library reads it. *)
Definition to_langchain (m : ChatMessage) : message :=
  if String.eqb (role m) "user" then HumanMessage (content m)
  else AIMessage (content m).

Definition library_empty_message : string :=
  "⚠️ La biblioteca está vacía. Sube documentos en la barra lateral.".

(** The response step: runs when the last message is the user's, asks the
    engine for its pipeline, and appends the assistant's message. *)
Definition respond (env : Env) (messages : list ChatMessage)
    : M (list ChatMessage) :=
  match last messages with
  | Some m =>
      if String.eqb (role m) "user" then
        qa_chain <- get_chain env ;;
        response <-
          match qa_chain with
          | Some chain =>
              let history := map to_langchain (removelast messages) in
              try_except
                (chain (mkChainInput (content m) history))
                (fun e => ret ("⚠️ Error: " +:+ e))
          | None => ret library_empty_message
          end ;;
        ret (messages ++ [mkChatMessage "assistant" response])
      else ret messages
  | None => ret messages
  end.

(** ** Vocabulary of the further statements *)

(** The client, when there is one, is bound to the configured directory and
    that directory exists. *)
Definition bound_to_persist_directory (w : World) : bool :=
  match vector_store w with
  | Some h =>
      bool_decide (persist_directory h = PERSIST_DIRECTORY)
      && bool_decide (is_Some (fs w !! PERSIST_DIRECTORY))
  | None => true
  end.

(** The index entries one file of a batch contributes. *)
Definition file_entries (env : Env) (file : UploadedFile) : Collection :=
  match pdf_load env (tmp_path file) with
  | Return docs => map (entry_of env) (chunks_of env (Some (name file)) docs)
  | Raise _ => []
  end.

Definition is_llm_call (c : call) : bool :=
  match c with
  | LlmCall _ _ => true
  | SearchCall _ _ _ _ => false
  end.

(** A value of the metadata of a stored entry. *)
Definition entry_lookup (key : string) (e : IndexEntry) : option meta_value :=
  match entry_metadata e with
  | Some m => m !! key
  | None => None
  end.

(** No [source] of the store contains a ['/']. *)
Definition plain_source (meta : option Metadata) : bool :=
  match source_of_meta meta with
  | Some (MStr p) => negb (has_slash p)
  | _ => true
  end.

(** A conversation of two finished turns and a new question. *)
Definition sample_chat : list ChatMessage :=
  [mkChatMessage "user" "What is compression?";
   mkChatMessage "assistant" "It reduces dynamic range.";
   mkChatMessage "user" "When do I use it?"].

(** A store with one entry whose [source] is a path. *)
Definition after_path_ingest : World :=
  snd (ingest_pdf (sample_env None) manual_tmp (Some "manuals/manual.pdf") fresh).

(** The sample installation with a model that is down. *)
Definition offline_env : Env :=
  {| pdf_load := sample_load;
     split_text := sample_split;
     embed := fun _ => [];
     add_fault := fun _ => None;
     get_fault := None;
     delete_fault := None;
     rmtree_fault := None;
     generate := fun _ _ => Raise "Connection refused";
     similarity_search := fun c _ k => Return (take k (map entry_document c));
     client_defines_len := false |}.

(** ** Vocabulary of the statements on the prompt and on re-ingestion *)

(** The fixed text of the answer template, up to the place the retrieved
    context takes. *)
Definition qa_instructions : string :=
  "Eres un asistente experto para tareas de preguntas y respuestas. " +:+ nl +:+
  "        Usa los siguientes fragmentos de contexto recuperado para responder a la pregunta. " +:+ nl +:+
  "        Si no sabes la respuesta, di simplemente que no lo sabes. " +:+ nl +:+
  "        Usa un máximo de tres oraciones y mantén la respuesta concisa." +:+ nl +:+
  "        RESPONDE SIEMPRE EN ESPAÑOL." +:+ nl +:+
  "        " +:+ nl +:+
  "        ".



(** The sample installation over a store that refuses an empty batch. *)
Definition strict_env : Env :=
  {| pdf_load := sample_load;
     split_text := sample_split;
     embed := fun _ => [];
     add_fault := fun chunks =>
       match chunks with
       | [] => Some "Expected IDs to be a non-empty list, got 0 IDs"
       | _ :: _ => None
       end;
     get_fault := None;
     delete_fault := None;
     rmtree_fault := None;
     generate := generate (sample_env None);
     similarity_search := similarity_search (sample_env None);
     client_defines_len := false |}.

(** ** Auxiliary lemmas *)

Lemma stored_insert (d : string) (c : Collection) (files : gmap string Collection) :
  stored d (<[d := c]> files) = c.
Proof. unfold stored. by rewrite lookup_insert_eq. Qed.

Lemma stored_insert_ne (d d' : string) (c : Collection)
    (files : gmap string Collection) :
  d <> d' -> stored d' (<[d := c]> files) = stored d' files.
Proof. intros Hne. unfold stored. by rewrite lookup_insert_ne. Qed.

(** The chunks of a stamped page carry the file name. *)
Lemma chunks_of_source (env : Env) (name : string) (docs : list Document)
    (c : Document) :
  truthy_str (Some name) = true ->
  c ∈ chunks_of env (Some name) docs ->
  metadata c !! "source" = Some (MStr name) /\ metadata c <> ∅.
Proof.
  intros Hname Hc. unfold chunks_of, split_documents in Hc.
  apply list_elem_of_In, in_flat_map in Hc as (d & Hd & Hc).
  apply in_map_iff in Hc as (t & <- & _).
  apply in_map_iff in Hd as (d0 & <- & _).
  unfold stamp_source. rewrite Hname. simpl.
  split; [apply lookup_insert_eq | apply insert_non_empty].
Qed.

Lemma entry_of_source (env : Env) (c : Document) (v : meta_value) :
  metadata c !! "source" = Some v -> source_of (entry_of env c) = Some v.
Proof.
  intros Hv. unfold source_of, entry_of. simpl.
  destruct (decide (metadata c = ∅)) as [Hempty|_]; [|done].
  rewrite Hempty, lookup_empty in Hv. done.
Qed.


Example basename_examples :
  basename "/tmp/tmpab12.pdf" = "tmpab12.pdf" /\
  basename "manual.pdf" = "manual.pdf" /\
  basename "manuals/" = EmptyString.
Proof. repeat split. Qed.

Example str_of_nat_examples :
  str_of_nat 0 = "0" /\ str_of_nat 42 = "42" /\ str_of_nat 1000 = "1000".
Proof. repeat split. Qed.

Lemma has_slash_false_basename (p : string) :
  has_slash p = false -> basename p = p.
Proof.
  destruct p as [|c rest]; [done|].
  simpl. destruct (Ascii.eqb c "/"); [done|].
  intros ->. done.
Qed.

Lemma elem_of_listed (metas : list (option Metadata)) (f : string) :
  f ∈ listed metas <->
  exists meta p, meta ∈ metas /\ source_of_meta meta = Some (MStr p) /\ basename p = f.
Proof.
  induction metas as [|meta rest IH]; simpl.
  - split; [set_solver|]. intros (meta & p & Hin & _). by apply elem_of_nil in Hin.
  - destruct (source_of_meta meta) as [[p|n]|] eqn:Hsrc.
    + rewrite elem_of_union, elem_of_singleton, IH. split.
      * intros [->|(meta' & p' & Hin & Hs & Hb)].
        -- exists meta, p. split; [left|done].
        -- exists meta', p'. split; [by right|done].
      * intros (meta' & p' & Hin & Hs & Hb).
        apply elem_of_cons in Hin as [->|Hin].
        -- left. rewrite Hsrc in Hs. by injection Hs as ->.
        -- right. by exists meta', p'.
    + rewrite IH. split.
      * intros (meta' & p' & Hin & Hs). exists meta', p'. split; [by right|done].
      * intros (meta' & p' & Hin & Hs & Hb).
        apply elem_of_cons in Hin as [->|Hin]; [congruence|].
        by exists meta', p'.
    + rewrite IH. split.
      * intros (meta' & p' & Hin & Hs). exists meta', p'. split; [by right|done].
      * intros (meta' & p' & Hin & Hs & Hb).
        apply elem_of_cons in Hin as [->|Hin]; [congruence|].
        by exists meta', p'.
Qed.

Lemma listed_app (ms1 ms2 : list (option Metadata)) :
  listed (ms1 ++ ms2) = listed ms1 ∪ listed ms2.
Proof.
  induction ms1 as [|meta rest IH]; simpl.
  - set_solver.
  - destruct (source_of_meta meta) as [[p|n]|]; rewrite ?IH; set_solver.
Qed.

Lemma created_entries_source (env : Env) (name : string) (docs : list Document)
    (e : IndexEntry) :
  truthy_str (Some name) = true ->
  e ∈ map (entry_of env) (chunks_of env (Some name) docs) ->
  source_of e = Some (MStr name).
Proof.
  intros Hname He.
  apply list_elem_of_In, in_map_iff in He as (c & <- & Hc).
  apply list_elem_of_In in Hc.
  apply entry_of_source. by eapply chunks_of_source.
Qed.



Lemma stamp_source_page_content (original_filename : option string)
    (doc : Document) :
  page_content (stamp_source original_filename doc) = page_content doc.
Proof. unfold stamp_source. by destruct (truthy_str original_filename). Qed.


(** The loop of [get_ingested_files] collects the base names of the
    [source] values when all of them are text. *)
Lemma for_fold_add_source (metas : list (option Metadata)) (acc : gset string)
    (w : World) :
  forallb text_source metas = true ->
  for_fold metas acc add_source w = (Return (listed metas ∪ acc), w).
Proof.
  revert acc.
  induction metas as [|meta rest IH]; intros acc Hall; simpl.
  - unfold ret. do 2 f_equal. set_solver.
  - simpl in Hall. apply andb_prop in Hall as [Hmeta Hrest].
    unfold bind at 1.
    assert (add_source acc meta w =
            (Return (match source_of_meta meta with
                     | Some (MStr p) => {[basename p]} ∪ acc
                     | _ => acc
                     end), w)) as ->.
    { unfold add_source. destruct meta as [m|]; simpl; [|done].
      destruct (decide (m = ∅)) as [->|_].
      - by rewrite lookup_empty.
      - unfold text_source in Hmeta. simpl in Hmeta.
        destruct (m !! "source") as [[p|n]|]; done. }
    rewrite IH by done.
    destruct (source_of_meta meta) as [[p|n]|]; do 2 f_equal; set_solver.
Qed.

(** What a call of [ingest_pdf] does, by the answers of the loader and of
    the store. *)
Lemma ingest_pdf_cases (env : Env) (file_path : string)
    (original_filename : option string) (w : World) :
  ingest_pdf env file_path original_filename w =
  match pdf_load env file_path with
  | Raise e => (Return (ingest_error_message e), w)
  | Return docs =>
      let chunks := chunks_of env original_filename docs in
      match add_fault env chunks with
      | Some e => (Return (ingest_error_message e), w)
      | None =>
          (Return (ingest_ok_message (length chunks) original_filename),
           mkWorld (Some (mkChroma (target_directory w)))
                   (<[target_directory w := indexed w ++ map (entry_of env) chunks]> (fs w))
                   (calls w))
      end
  end.
Proof.
  destruct w as [[[d]|] files log];
    unfold ingest_pdf, try_except, bind, lift, get_vector_store, indexed,
      target_directory, chunks_of; simpl;
    destruct (pdf_load env file_path) as [docs|e]; simpl; try done;
    unfold add_documents, Chroma_from_documents, bind, append_entries; simpl;
    destruct (add_fault env _) as [e|]; done.
Qed.

Lemma live_client_Some (env : Env) (w : World) (h : Chroma) :
  live_client env w = Some h -> vector_store w = Some h.
Proof.
  unfold live_client. destruct (vector_store w) as [h'|]; [|done].
  destruct (stored _ _); [destruct (client_defines_len env)|]; congruence.
Qed.

(** A client tests true, unless its store is empty. *)
Lemma live_client_cases (env : Env) (w : World) (h : Chroma) :
  vector_store w = Some h ->
  live_client env w = Some h \/ (live_client env w = None /\ indexed w = []).
Proof.
  intros Hvs. unfold live_client, indexed, target_directory. rewrite Hvs.
  destruct (stored _ _); [destruct (client_defines_len env)|]; auto.
Qed.

Lemma live_client_nonempty (env : Env) (w : World) (h : Chroma) :
  vector_store w = Some h -> 0 < length (indexed w) ->
  live_client env w = Some h.
Proof.
  intros Hvs Hlen.
  destruct (live_client_cases env w h Hvs) as [Hlive | [_ Hnil]]; [done|].
  rewrite Hnil in Hlen. simpl in Hlen. lia.
Qed.

(** The value of the listing on an initialised store that answers. *)
Lemma get_ingested_files_value (env : Env) (w : World) (h : Chroma) :
  vector_store w = Some h ->
  get_fault env = None ->
  forallb text_source (map entry_metadata (indexed w)) = true ->
  get_ingested_files env w
    = (Return (elements (listed (map entry_metadata (indexed w)))), w).
Proof.
  intros Hvs Hget Htext.
  unfold get_ingested_files, bind, get_live_vector_store.
  destruct (live_client_cases env w h Hvs) as [-> | [-> Hnil]].
  - unfold indexed, target_directory in *. rewrite Hvs in *.
    unfold try_except, bind, Chroma_get. rewrite Hget. simpl.
    rewrite for_fold_add_source by done. unfold ret. do 3 f_equal. set_solver.
  - rewrite Hnil. simpl. unfold ret. by rewrite elements_empty.
Qed.

(** [ingest_pdf] never raises. *)
Lemma ingest_pdf_returns (env : Env) (file_path : string)
    (original_filename : option string) (w : World) :
  exists msg, fst (ingest_pdf env file_path original_filename w) = Return msg.
Proof.
  rewrite ingest_pdf_cases.
  destruct (pdf_load env file_path) as [docs|e]; simpl; [|by eexists].
  destruct (add_fault env _); by eexists.
Qed.

(** The pipeline of [get_chain], by the answers of the model and of the
    search. *)
Lemma rag_chain_cases (env : Env) (h : Chroma) (x : ChainInput) (w : World) :
  let logged cs := mkWorld (vector_store w) (fs w) (calls w ++ cs) in
  let p1 := reformulation_messages x in
  rag_chain env h x w =
  match generate env LLM_MODEL p1 with
  | Raise e => (Raise e, logged [LlmCall LLM_MODEL p1])
  | Return q =>
      let search := SearchCall (persist_directory h) "similarity" 4 q in
      match similarity_search env (stored (persist_directory h) (fs w)) q 4 with
      | Raise e => (Raise e, logged [LlmCall LLM_MODEL p1; search])
      | Return docs =>
          let p2 := answer_messages x (format_docs docs) in
          (generate env LLM_MODEL p2,
           logged [LlmCall LLM_MODEL p1; search; LlmCall LLM_MODEL p2])
      end
  end.
Proof.
  intros logged p1. subst p1 logged.
  unfold rag_chain, history_aware_retriever, pipe, RunnablePassthrough_assign_context,
    RunnableLambda, contextualize_q_prompt, qa_prompt, Ollama, StrOutputParser,
    as_retriever, bind, ret, lift, log_call, reformulation_messages,
    answer_messages. simpl.
  destruct (generate env LLM_MODEL (_ :: _)) as [q|e]; [|done].
  destruct (similarity_search env _ q 4) as [docs|e]; simpl.
  - rewrite <- !app_assoc. simpl.
    by destruct (generate env LLM_MODEL _).
  - by rewrite <- !app_assoc.
Qed.

(** The state a successful [ingest_pdf] leaves. *)
Lemma ingest_pdf_ok_state (env : Env) (file_path : string)
    (original_filename : option string) (docs : list Document) (w : World) :
  pdf_load env file_path = Return docs ->
  add_fault env (chunks_of env original_filename docs) = None ->
  let w' := snd (ingest_pdf env file_path original_filename w) in
  vector_store w' = Some (mkChroma (target_directory w)) /\
  target_directory w' = target_directory w /\
  indexed w' =
    indexed w ++ map (entry_of env) (chunks_of env original_filename docs).
Proof.
  intros Hload Hadd w'. subst w'.
  rewrite ingest_pdf_cases, Hload. simpl. rewrite Hadd. simpl.
  split; [done|]. split; [done|].
  unfold indexed at 1. simpl. by rewrite stored_insert.
Qed.

(** ** C1: the listing *)

(** C1, as the specification words it, fails: after a page was ingested
    without a file name, its [source] is the path ["/tmp/tmpab12.pdf"] while
    the listing shows ["tmpab12.pdf"], which is no [source] value of the
    store. *)
Lemma listing_is_not_the_sources :
  ~ listing_is_the_sources (sample_env None) after_unnamed_ingest.
Proof.
  intros Hclaim.
  destruct (Hclaim ["tmpab12.pdf"]) as [_ Hiff]; [by vm_compute|].
  destruct (Hiff "tmpab12.pdf") as [Hsrc _].
  destruct Hsrc as (e & Hin & Hs); [left|].
  vm_compute in Hin.
  apply list_elem_of_singleton in Hin. subst e.
  vm_compute in Hs. discriminate Hs.
Qed.

(** C1 (amended): on an initialised store whose [get()] answers and whose
    [source] values are text, [get_ingested_files] leaves the state alone
    and returns, without duplicates, exactly the [os.path.basename] of the
    [source] values of the index entries in the store. *)
Theorem get_ingested_files_lists_basenames (env : Env) (w : World) (h : Chroma) :
  vector_store w = Some h ->
  get_fault env = None ->
  forallb text_source (map entry_metadata (indexed w)) = true ->
  exists files,
    get_ingested_files env w = (Return files, w) /\
    NoDup files /\
    forall f, f ∈ files <->
      exists e p, e ∈ indexed w /\ source_of e = Some (MStr p) /\ basename p = f.
Proof.
  intros Hvs Hget Htext.
  exists (elements (listed (map entry_metadata (indexed w)))).
  split; [|split].
  - by eapply get_ingested_files_value.
  - apply NoDup_elements.
  - intros f. rewrite elem_of_elements, elem_of_listed. split.
    + intros (meta & p & Hin & Hs & Hb).
      apply list_elem_of_In, in_map_iff in Hin as (e & <- & He).
      exists e, p. by rewrite list_elem_of_In.
    + intros (e & p & Hin & Hs & Hb).
      exists (entry_metadata e), p. split; [|done].
      apply list_elem_of_In, in_map. by apply list_elem_of_In.
Qed.

Lemma get_ingested_files_lists_basenames_witness :
  exists files,
    get_ingested_files (sample_env None) after_unnamed_ingest
      = (Return files, after_unnamed_ingest) /\
    NoDup files /\
    forall f, f ∈ files <->
      exists e p, e ∈ indexed after_unnamed_ingest /\
        source_of e = Some (MStr p) /\ basename p = f.
Proof.
  apply (get_ingested_files_lists_basenames (sample_env None)
           after_unnamed_ingest (mkChroma PERSIST_DIRECTORY)).
  - reflexivity.
  - reflexivity.
  - vm_compute. reflexivity.
Defined.

(** ** C2: the file name stamped on the entries *)

(** C2, as the specification words it, fails: [original_filename] is
    optional, and a call without it leaves on every entry the [source] the
    loader wrote, which is the path of the temporary file. *)
Lemma unnamed_ingest_keeps_the_path :
  ~ stamped_with_the_name (sample_env None) manual_tmp None.
Proof.
  intros Hclaim.
  destruct (Hclaim
              [loaded_page manual_tmp "Compression reduces dynamic range." 0]
              (entry_of (sample_env None)
                 (loaded_page manual_tmp "Compression reduces dynamic range." 0)))
    as [_ Hpath].
  - reflexivity.
  - vm_compute. left.
  - apply Hpath. vm_compute. reflexivity.
Qed.

(** C2 (amended): when [ingest_pdf] is given a non-empty file name, the PDF
    loads and the store takes the chunks, the call appends one index entry
    per chunk of every page and each of them carries that file name as its
    [source]. *)
Theorem ingest_pdf_stamps_filename (env : Env) (file_path name : string)
    (docs : list Document) (w : World) :
  truthy_str (Some name) = true ->
  pdf_load env file_path = Return docs ->
  add_fault env (chunks_of env (Some name) docs) = None ->
  let created := map (entry_of env) (chunks_of env (Some name) docs) in
  let w' := snd (ingest_pdf env file_path (Some name) w) in
  fst (ingest_pdf env file_path (Some name) w)
    = Return (ingest_ok_message (length created) (Some name)) /\
  indexed w' = indexed w ++ created /\
  forall e, e ∈ created -> source_of e = Some (MStr name).
Proof.
  intros Hname Hload Hadd created w'. subst w'.
  rewrite ingest_pdf_cases, Hload. simpl. rewrite Hadd. simpl.
  split; [|split].
  - subst created. by rewrite length_map.
  - unfold indexed at 1. simpl. by rewrite stored_insert.
  - intros e He. subst created. by eapply created_entries_source.
Qed.

Lemma ingest_pdf_stamps_filename_witness :
  let created :=
    map (entry_of (sample_env None))
        (chunks_of (sample_env None) (Some "manual.pdf")
           [loaded_page manual_tmp "Compression reduces dynamic range." 0]) in
  fst (ingest_pdf (sample_env None) manual_tmp (Some "manual.pdf") fresh)
    = Return (ingest_ok_message (length created) (Some "manual.pdf")) /\
  indexed after_ingest = indexed fresh ++ created /\
  forall e, e ∈ created -> source_of e = Some (MStr "manual.pdf").
Proof.
  apply (ingest_pdf_stamps_filename (sample_env None) manual_tmp "manual.pdf"
           [loaded_page manual_tmp "Compression reduces dynamic range." 0] fresh).
  - reflexivity.
  - reflexivity.
  - reflexivity.
Defined.

(** The empty string is no file name either: the guard of the stamping loop
    takes it for false. *)
Example empty_name_keeps_the_path :
  map source_of
      (indexed (snd (ingest_pdf (sample_env None) manual_tmp (Some EmptyString) fresh)))
    = [Some (MStr manual_tmp)].
Proof. vm_compute. reflexivity. Qed.

(** ** C3: when [get_chain] answers a pipeline *)

Lemma boot_vector_store (files : gmap string Collection) :
  vector_store (boot files) =
  if bool_decide (is_Some (files !! PERSIST_DIRECTORY))
  then Some (mkChroma PERSIST_DIRECTORY) else None.
Proof.
  unfold boot, __init__, _init_vector_store, bind, set_vector_store,
    os_path_exists, Chroma_open, ret. simpl.
  by destruct (bool_decide (is_Some (files !! PERSIST_DIRECTORY))).
Qed.

Lemma get_chain_cases (env : Env) (w : World) :
  get_chain env w =
  (Return (match live_client env w with
           | Some h => Some (rag_chain env h)
           | None => None
           end), w).
Proof.
  unfold get_chain, bind, get_live_vector_store, ret.
  by destruct (live_client env w).
Qed.

(** C3, as the specification words it, fails: after a document was ingested
    and a [clear_database] failed on [rmtree], the entries of the document
    are still persisted, and [get_chain] answers [None]. *)
Lemma absent_with_documents_indexed :
  ~ absent_iff_nothing_indexed (sample_env None) after_failed_clear.
Proof.
  intros [Hempty _].
  assert (indexed after_failed_clear = []) as Hnil by (apply Hempty; reflexivity).
  vm_compute in Hnil. discriminate Hnil.
Qed.

(** C3 (amended): [get_chain] never fails and leaves the state alone; it
    answers [None] exactly when the attribute [vector_store] tests false,
    which it does when it is [None]; that is the case for an engine
    constructed while the persisted directory does not exist, and it is no
    longer the case after an [ingest_pdf] that stored at least one chunk. *)
Theorem get_chain_absent_iff_no_client (env : Env) (w : World)
    (files : gmap string Collection) (file_path : string)
    (original_filename : option string) (docs : list Document) :
  (exists r, get_chain env w = (Return r, w) /\
             (r = None <-> live_client env w = None)) /\
  (vector_store w = None -> fst (get_chain env w) = Return None) /\
  (files !! PERSIST_DIRECTORY = None ->
   fst (get_chain env (boot files)) = Return None) /\
  (pdf_load env file_path = Return docs ->
   add_fault env (chunks_of env original_filename docs) = None ->
   0 < length (chunks_of env original_filename docs) ->
   exists chain,
     fst (get_chain env (snd (ingest_pdf env file_path original_filename w)))
       = Return (Some chain)).
Proof.
  split; [|split; [|split]].
  - eexists. split; [apply get_chain_cases|].
    destruct (live_client env w); split; done.
  - intros Hnone. rewrite get_chain_cases. unfold live_client. by rewrite Hnone.
  - intros Hnone. rewrite get_chain_cases. unfold live_client.
    rewrite boot_vector_store, Hnone, bool_decide_eq_false_2; [done|].
    by intros [c Hc].
  - intros Hload Hadd Hpos.
    destruct (ingest_pdf_ok_state env file_path original_filename docs w Hload Hadd)
      as (Hvs & _ & Hidx).
    rewrite get_chain_cases.
    erewrite live_client_nonempty; [by eexists|exact Hvs|].
    rewrite Hidx, length_app, length_map. lia.
Qed.

Lemma get_chain_absent_iff_no_client_witness :
  fst (get_chain (sample_env None) fresh) = Return None /\
  exists chain, fst (get_chain (sample_env None) after_ingest) = Return (Some chain).
Proof.
  destruct (get_chain_absent_iff_no_client (sample_env None) fresh ∅ manual_tmp
              (Some "manual.pdf")
              [loaded_page manual_tmp "Compression reduces dynamic range." 0])
    as (_ & _ & Hfresh & Hingest).
  split.
  - apply Hfresh. reflexivity.
  - apply Hingest; [reflexivity|reflexivity|vm_compute; lia].
Defined.

(** ** C4: deleting a file *)

Lemma matches_where_source (filename : string) (e : IndexEntry) :
  matches_where "source" (MStr filename) e = true <->
  source_of e = Some (MStr filename).
Proof.
  unfold matches_where, source_of, source_of_meta.
  destruct (entry_metadata e) as [m|]; [|done].
  apply bool_decide_eq_true.
Qed.

Lemma filter_nothing_matches {A} (f : A -> bool) (l : list A) :
  existsb f l = false -> List.filter (fun x => negb (f x)) l = l.
Proof.
  induction l as [|x l IH]; simpl; [done|].
  intros [Hx Hl]%orb_false_elim. rewrite Hx. simpl. by rewrite IH.
Qed.

Lemma delete_file_cases (env : Env) (filename : string) (w : World) :
  delete_file env filename w =
  match live_client env w with
  | None => (Return "Error: Base de datos no inicializada.", w)
  | Some h =>
      match delete_fault env with
      | Some e => (Return ("Error al eliminar archivo: " +:+ e), w)
      | None =>
          (Return (delete_ok_message filename),
           mkWorld (vector_store w)
             (<[target_directory w :=
                  List.filter
                    (fun e => negb (matches_where "source" (MStr filename) e))
                    (indexed w)]> (fs w))
             (calls w))
      end
  end.
Proof.
  unfold delete_file, bind, get_live_vector_store, indexed, target_directory.
  destruct (live_client env w) as [h|] eqn:Hlive; [|done].
  pose proof (live_client_Some env w h Hlive) as Hvs. rewrite Hvs.
  unfold try_except, bind, Chroma_delete_where.
  destruct (delete_fault env); simpl; by rewrite ?Hvs.
Qed.




(** ** C5: ingestion reports, it never raises *)

Example ingest_ok_message_shows_count :
  ingest_ok_message 12 (Some "manual.pdf")
    = "Procesado correctamente: 12 fragmentos de 'manual.pdf'.".
Proof. reflexivity. Qed.


(** A batch whose first file cannot be read still ingests the second. *)
Example batch_continues_past_bad_file :
  let batch := [mkUploadedFile "broken.pdf" "/tmp/tmpzz99.pdf";
                mkUploadedFile "manual.pdf" manual_tmp] in
  fst (ingest_pdf (sample_env None) "/tmp/tmpzz99.pdf" (Some "broken.pdf") fresh)
    = Return "Error al procesar PDF: Invalid file path" /\
  upload_loop (sample_env None) batch fresh = (Return tt, after_ingest).
Proof. split; reflexivity. Qed.

(** ** C6 and C8: the wiring of the answer pipeline *)

Lemma qa_system_prompt_ends_with_context (context : string) :
  qa_system_prompt context = qa_instructions +:+ context.
Proof. reflexivity. Qed.

(** C6: when the model answers the reformulation prompt with [q] and the
    store answers the search, the pipeline asks the store for the 4 nearest
    entries to [q], and then calls the model once more and no further, on a
    prompt whose system message is the fixed instructions followed by the
    context block, and the context block is exactly the texts of the
    retrieved chunks, in the order retrieved, joined by two newlines; the
    text of that call is returned as it is. *)
Theorem rag_chain_retrieves_four_and_answers (env : Env) (h : Chroma)
    (x : ChainInput) (w : World) (q : string) (docs : list Document) :
  generate env LLM_MODEL
    (SystemMessage contextualize_q_system_prompt
       :: chat_history x ++ [HumanMessage (input x)]) = Return q ->
  similarity_search env (stored (persist_directory h) (fs w)) q 4 = Return docs ->
  rag_chain env h x w =
    (generate env LLM_MODEL
       (SystemMessage
          (qa_instructions +:+ String.concat (nl +:+ nl) (map page_content docs))
          :: chat_history x ++ [HumanMessage (input x)]),
     mkWorld (vector_store w) (fs w)
       (calls w ++
        [LlmCall LLM_MODEL
           (SystemMessage contextualize_q_system_prompt
              :: chat_history x ++ [HumanMessage (input x)]);
         SearchCall (persist_directory h) "similarity" 4 q;
         LlmCall LLM_MODEL
           (SystemMessage
              (qa_instructions
                 +:+ String.concat (nl +:+ nl) (map page_content docs))
              :: chat_history x ++ [HumanMessage (input x)])])).
Proof.
  intros Hq Hdocs.
  pose proof (rag_chain_cases env h x w) as Hcases. simpl in Hcases.
  unfold reformulation_messages, answer_messages, format_docs in Hcases.
  rewrite Hq, Hdocs in Hcases.
  rewrite qa_system_prompt_ends_with_context in Hcases. exact Hcases.
Qed.

Lemma rag_chain_retrieves_four_and_answers_witness :
  rag_chain (sample_env None) (mkChroma PERSIST_DIRECTORY)
    (mkChainInput "What does it do?" []) after_ingest
  = (Return "No lo sé.",
     mkWorld (vector_store after_ingest) (fs after_ingest)
       (calls after_ingest ++
        [LlmCall LLM_MODEL
           [SystemMessage contextualize_q_system_prompt;
            HumanMessage "What does it do?"];
         SearchCall PERSIST_DIRECTORY "similarity" 4 "standalone: What does it do?";
         LlmCall LLM_MODEL
           [SystemMessage
              (qa_instructions +:+ "Compression reduces dynamic range.");
            HumanMessage "What does it do?"]])).
Proof.
  apply (rag_chain_retrieves_four_and_answers (sample_env None)
           (mkChroma PERSIST_DIRECTORY) (mkChainInput "What does it do?" [])
           after_ingest "standalone: What does it do?"
           [mkDocument "Compression reduces dynamic range."
              (<["source" := MStr "manual.pdf"]> (<["page" := MInt 0]> ∅))]).
  - reflexivity.
  - vm_compute. reflexivity.
Defined.

(** With two retrieved chunks the system message ends with the two texts
    and a blank line between them. *)
Example context_block_of_two_chunks :
  forall reply,
    generate (sample_env None) LLM_MODEL
      [SystemMessage (qa_instructions +:+ "first" +:+ nl +:+ nl +:+ "second");
       HumanMessage "q"] = reply ->
    fst (rag_chain (sample_env None) (mkChroma PERSIST_DIRECTORY)
           (mkChainInput "q" [])
           (mkWorld (Some (mkChroma PERSIST_DIRECTORY))
              {[ PERSIST_DIRECTORY :=
                   [mkEntry "first" None []; mkEntry "second" None []] ]} []))
      = reply.
Proof. intros reply <-. vm_compute. reflexivity. Qed.

Example format_docs_joins_with_blank_line :
  format_docs [mkDocument "first" ∅; mkDocument "second" ∅; mkDocument "third" ∅]
    = "first" +:+ nl +:+ nl +:+ "second" +:+ nl +:+ nl +:+ "third".
Proof. reflexivity. Qed.

(** C8: on every input, also with an empty history, the first thing the
    pipeline does is to call the model on the reformulation prompt, and the
    query of any similarity search it makes is the text the model returned
    for that prompt, not the question as it was asked. *)
Theorem reformulation_always_runs (env : Env) (h : Chroma) (x : ChainInput)
    (w : World) :
  exists rest,
    calls (snd (rag_chain env h x w))
      = calls w ++ LlmCall LLM_MODEL (reformulation_messages x) :: rest /\
    forall d st k query,
      SearchCall d st k query ∈ rest ->
      generate env LLM_MODEL (reformulation_messages x) = Return query.
Proof.
  pose proof (rag_chain_cases env h x w) as Hcases. simpl in Hcases.
  rewrite Hcases. clear Hcases.
  destruct (generate env LLM_MODEL (reformulation_messages x)) as [q|e]; simpl.
  - destruct (similarity_search env _ q 4) as [docs|e]; simpl.
    + eexists. split; [done|].
      intros d st k query Hin.
      apply elem_of_cons in Hin as [[= _ _ _ ->]|Hin]; [done|].
      apply list_elem_of_singleton in Hin. discriminate Hin.
    + eexists. split; [done|].
      intros d st k query Hin.
      apply list_elem_of_singleton in Hin. by injection Hin as _ _ _ ->.
  - exists []. split; [done|].
    intros d st k query Hin. by apply elem_of_nil in Hin.
Qed.

(** With no history at all the reformulation prompt is the system text
    followed by the question, and the model is still called on it. *)
Example first_turn_is_reformulated :
  calls (snd (rag_chain (sample_env None) (mkChroma PERSIST_DIRECTORY)
                (mkChainInput "What is compression?" []) after_ingest))
  = [LlmCall LLM_MODEL
       [SystemMessage contextualize_q_system_prompt;
        HumanMessage "What is compression?"];
     SearchCall PERSIST_DIRECTORY "similarity" 4 "standalone: What is compression?";
     LlmCall LLM_MODEL
       [SystemMessage (qa_system_prompt "Compression reduces dynamic range.");
        HumanMessage "What is compression?"]].
Proof. vm_compute. reflexivity. Qed.

(** ** C9: ingestion only appends *)

(** C9: when the PDF loads and the store takes the chunks, the index
    entries that were in the store before the call are all still there, in
    the same order and unchanged, followed by the new ones; and no other
    directory is touched. *)
Theorem ingest_pdf_only_appends (env : Env) (file_path : string)
    (original_filename : option string) (docs : list Document) (w : World) :
  pdf_load env file_path = Return docs ->
  add_fault env (chunks_of env original_filename docs) = None ->
  let w' := snd (ingest_pdf env file_path original_filename w) in
  indexed w' =
    indexed w ++ map (entry_of env) (chunks_of env original_filename docs) /\
  (forall i e, indexed w !! i = Some e -> indexed w' !! i = Some e) /\
  (forall d, d <> target_directory w -> fs w' !! d = fs w !! d).
Proof.
  intros Hload Hadd w'. subst w'.
  rewrite ingest_pdf_cases, Hload. simpl. rewrite Hadd. simpl.
  assert (indexed
            (mkWorld (Some (mkChroma (target_directory w)))
               (<[target_directory w :=
                    indexed w ++ map (entry_of env)
                                  (chunks_of env original_filename docs)]> (fs w))
               (calls w))
          = indexed w ++ map (entry_of env) (chunks_of env original_filename docs))
    as Hidx.
  { unfold indexed at 1. simpl. by rewrite stored_insert. }
  rewrite Hidx. split; [done|]. split.
  - intros i e Hi. by apply lookup_app_l_Some.
  - intros d Hd. by apply lookup_insert_ne.
Qed.

Lemma ingest_pdf_only_appends_witness :
  let w' := snd (ingest_pdf (sample_env None) manual_tmp (Some "manual-v2.pdf")
                   after_ingest) in
  indexed w' =
    indexed after_ingest ++
    map (entry_of (sample_env None))
        (chunks_of (sample_env None) (Some "manual-v2.pdf")
           [loaded_page manual_tmp "Compression reduces dynamic range." 0]) /\
  (forall i e, indexed after_ingest !! i = Some e -> indexed w' !! i = Some e) /\
  (forall d, d <> target_directory after_ingest ->
             fs w' !! d = fs after_ingest !! d).
Proof.
  apply (ingest_pdf_only_appends (sample_env None) manual_tmp
           (Some "manual-v2.pdf")
           [loaded_page manual_tmp "Compression reduces dynamic range." 0]
           after_ingest).
  - reflexivity.
  - reflexivity.
Defined.

(** ** C10: clearing the database *)

(** C10: when the persisted directory exists and [rmtree] fails,
    [clear_database] answers the error text while the attribute
    [vector_store] is already [None] and the directory, with what it holds,
    is still in place; when the directory does not exist it answers that the
    database was already empty and changes nothing, the attribute
    included. *)
Theorem clear_database_not_atomic (env : Env) (w : World) (c : Collection)
    (e : string) :
  (fs w !! PERSIST_DIRECTORY = Some c ->
   rmtree_fault env = Some e ->
   clear_database env w =
     (Return ("Error al borrar base de datos: " +:+ e),
      mkWorld None (fs w) (calls w))) /\
  (fs w !! PERSIST_DIRECTORY = None ->
   clear_database env w = (Return "La base de datos ya estaba vacía.", w)).
Proof.
  unfold clear_database, bind, os_path_exists, try_except, set_vector_store,
    shutil_rmtree.
  split.
  - intros Hdir Hrm. rewrite Hdir, bool_decide_eq_true_2 by done.
    simpl. by rewrite Hrm.
  - intros Hdir. rewrite Hdir, bool_decide_eq_false_2; [done|].
    by intros [c' Hc'].
Qed.

Lemma clear_database_not_atomic_witness :
  clear_database (sample_env (Some "Permission denied")) after_ingest =
    (Return "Error al borrar base de datos: Permission denied",
     mkWorld None (fs after_ingest) (calls after_ingest)) /\
  clear_database (sample_env None) fresh
    = (Return "La base de datos ya estaba vacía.", fresh).
Proof.
  split.
  - apply (clear_database_not_atomic (sample_env (Some "Permission denied"))
             after_ingest (indexed after_ingest) "Permission denied").
    + vm_compute. reflexivity.
    + reflexivity.
  - apply (clear_database_not_atomic (sample_env None) fresh [] EmptyString).
    reflexivity.
Defined.

(** When [rmtree] succeeds the directory is gone and the client with it. *)
Lemma clear_database_ok (env : Env) (w : World) (c : Collection) :
  fs w !! PERSIST_DIRECTORY = Some c ->
  rmtree_fault env = None ->
  clear_database env w =
    (Return "Base de datos borrada correctamente.",
     mkWorld None (delete PERSIST_DIRECTORY (fs w)) (calls w)).
Proof.
  intros Hdir Hrm.
  unfold clear_database, bind, os_path_exists, try_except, set_vector_store,
    shutil_rmtree.
  rewrite Hdir, bool_decide_eq_true_2 by done. simpl. by rewrite Hrm.
Qed.

(** ** C7: ingesting the same file twice *)







(** The two ingestions of the counterexample both report success, with one
    chunk each. *)
Example reingest_under_empty_name_succeeds :
  let w1 := snd (ingest_pdf strict_env manual_tmp (Some EmptyString) fresh) in
  fst (ingest_pdf strict_env manual_tmp (Some EmptyString) fresh)
    = Return "Procesado correctamente: 1 fragmentos de ''." /\
  fst (ingest_pdf strict_env manual_tmp_again (Some EmptyString) w1)
    = Return "Procesado correctamente: 1 fragmentos de ''.".
Proof. split; reflexivity. Qed.



(** A store that refuses an empty batch turns the ingestion of a PDF
    without text into an error: nothing is ingested. *)
Example textless_pdf_is_refused :
  ingest_pdf strict_env scan_tmp (Some "scan.pdf") fresh
    = (Return "Error al procesar PDF: Expected IDs to be a non-empty list, got 0 IDs",
       fresh).
Proof. reflexivity. Qed.

Example reingest_listing_and_count :
  let w2 := snd (ingest_pdf (sample_env None) manual_tmp_again (Some "manual.pdf")
                   after_ingest) in
  fst (get_ingested_files (sample_env None) w2) = Return ["manual.pdf"] /\
  length (indexed after_ingest) = 1 /\ length (indexed w2) = 2.
Proof. vm_compute. done. Qed.

(** ** Further properties of the listing *)

Lemma basename_no_slash (p : string) : has_slash (basename p) = false.
Proof.
  induction p as [|c rest IH]; simpl; [done|].
  destruct (has_slash rest) eqn:Hrest; [done|].
  destruct (Ascii.eqb c "/") eqn:Hc; [done|].
  simpl. by rewrite Hc.
Qed.

Lemma basename_slash_differs (p : string) :
  has_slash p = true -> basename p <> p.
Proof.
  intros Hp Heq. pose proof (basename_no_slash p) as Hb.
  rewrite Heq in Hb. congruence.
Qed.

(** The loop of the listing neither changes the state nor depends on it. *)
Lemma for_fold_add_source_pure (metas : list (option Metadata))
    (acc : gset string) :
  exists o, forall w, for_fold metas acc add_source w = (o, w).
Proof.
  revert acc. induction metas as [|meta rest IH]; intros acc; simpl.
  - by eexists.
  - assert (exists o, forall w, add_source acc meta w = (o, w)) as [o Ho].
    { unfold add_source. destruct meta as [m|]; [|by eexists].
      destruct (decide (m = ∅)) as [_|_]; [by eexists|].
      destruct (m !! "source") as [[p|z]|]; by eexists. }
    destruct o as [acc'|e].
    + destruct (IH acc') as [o' Ho']. exists o'. intros w.
      unfold bind. by rewrite Ho, Ho'.
    + exists (Raise e). intros w. unfold bind. by rewrite Ho.
Qed.

(** The listing reads the client and the directories only. *)
Lemma get_ingested_files_reads (env : Env) (v : option Chroma)
    (files : gmap string Collection) (log : list call) :
  exists names,
    NoDup names /\
    forall log', get_ingested_files env (mkWorld v files log')
                 = (Return names, mkWorld v files log').
Proof.
  unfold get_ingested_files, bind, get_live_vector_store, live_client. simpl.
  destruct v as [h|]; [|exists []; split; [constructor|done]].
  assert (exists names, NoDup names /\
            forall log',
              try_except
                (fun w =>
                   match Chroma_get env h w with
                   | (Return data, w') =>
                       match metadatas data with
                       | Some metas =>
                           bind (for_fold metas (∅ : gset string) add_source)
                                (fun u => ret (elements u))
                       | None => ret []
                       end w'
                   | (Raise e, w') => (Raise e, w')
                   end)
                (fun _ => ret []) (mkWorld (Some h) files log')
              = (Return names, mkWorld (Some h) files log')) as (names & Hnd & Hrun).
  { unfold try_except, Chroma_get.
    destruct (get_fault env); [exists []; split; [constructor|done]|].
    simpl.
    destruct (for_fold_add_source_pure
                (map entry_metadata (stored (persist_directory h) files)) ∅)
      as [[u|e] Ho].
    - exists (elements u). split; [apply NoDup_elements|].
      intros log'. unfold bind. by rewrite Ho.
    - exists []. split; [constructor|].
      intros log'. unfold bind. by rewrite Ho. }
  destruct (stored (persist_directory h) files) eqn:Hst.
  - destruct (client_defines_len env).
    + exists []. split; [constructor|done].
    + exists names. split; [done|]. intros log'. apply Hrun.
  - exists names. split; [done|]. intros log'. apply Hrun.
Qed.

(** X1: [get_ingested_files] fails soft: whatever the store answers, it
    raises nothing, leaves the state as it was and returns a list without
    duplicates; the list is empty when there is no usable client and when
    [get()] raises. *)
Theorem get_ingested_files_fails_soft (env : Env) (w : World) :
  exists names,
    get_ingested_files env w = (Return names, w) /\
    NoDup names /\
    (live_client env w = None -> names = []) /\
    (forall e, get_fault env = Some e -> names = []).
Proof.
  destruct w as [v files log].
  destruct (get_ingested_files_reads env v files log) as (names & Hnd & Hrun).
  exists names. split; [apply Hrun|]. split; [done|].
  specialize (Hrun log). split.
  - intros Hlive.
    unfold get_ingested_files, bind, get_live_vector_store in Hrun.
    rewrite Hlive in Hrun. unfold ret in Hrun. congruence.
  - intros e He.
    unfold get_ingested_files, bind, get_live_vector_store in Hrun.
    destruct (live_client env _) as [h|]; [|unfold ret in Hrun; congruence].
    unfold try_except, bind, Chroma_get in Hrun. rewrite He in Hrun.
    unfold raise, ret in Hrun. congruence.
Qed.

(** A [source] that is no text makes [os.path.basename] raise, and the
    listing is empty although the store is not. *)
Example number_as_source_empties_the_listing :
  let w := mkWorld (Some (mkChroma PERSIST_DIRECTORY))
             {[ PERSIST_DIRECTORY :=
                  [mkEntry "a" (Some {[ "source" := MStr "a.pdf" ]}) [];
                   mkEntry "b" (Some {[ "source" := MInt 7 ]}) []] ]} [] in
  get_ingested_files (sample_env None) w = (Return [], w).
Proof. vm_compute. reflexivity. Qed.

(** X2: no name the listing returns contains a ['/']: whatever the [source]
    values are, the library view shows bare file names. *)
Theorem listed_names_have_no_slash (env : Env) (w : World) (names : list string)
    (f : string) :
  fst (get_ingested_files env w) = Return names ->
  f ∈ names ->
  has_slash f = false.
Proof.
  intros Hrun Hin.
  destruct w as [v files log].
  unfold get_ingested_files, bind, get_live_vector_store in Hrun.
  destruct (live_client env _) as [h|]; simpl in Hrun;
    [|injection Hrun as <-; by apply elem_of_nil in Hin].
  unfold try_except, bind, Chroma_get in Hrun.
  destruct (get_fault env);
    [simpl in Hrun; injection Hrun as <-; by apply elem_of_nil in Hin|].
  simpl in Hrun.
  set (metas := map entry_metadata (stored (persist_directory h) files)) in *.
  assert (forall acc w0 u w1,
            (forall x, x ∈ acc -> has_slash x = false) ->
            for_fold metas acc add_source w0 = (Return u, w1) ->
            forall x, x ∈ u -> has_slash x = false) as Hinv.
  { clear. induction metas as [|meta rest IH]; intros acc w0 u w1 Hacc Hfold; simpl in Hfold.
    - unfold ret in Hfold. injection Hfold as <- _. done.
    - unfold bind in Hfold.
      destruct (add_source acc meta w0) as [[acc'|e] w0'] eqn:Hadd; [|done].
      eapply IH; [|exact Hfold].
      unfold add_source in Hadd. destruct meta as [m|];
        [|unfold ret in Hadd; injection Hadd as <- _; done].
      destruct (decide (m = ∅)) as [_|_];
        [unfold ret in Hadd; injection Hadd as <- _; done|].
      destruct (m !! "source") as [[p|z]|];
        [|done|unfold ret in Hadd; injection Hadd as <- _; done].
      unfold os_path_basename, bind, ret in Hadd. injection Hadd as <- _.
      intros x [Hx|Hx]%elem_of_union; [|by apply Hacc].
      apply elem_of_singleton in Hx as ->. apply basename_no_slash. }
  destruct (for_fold metas ∅ add_source _) as [[u|e] w1] eqn:Hfold;
    simpl in Hrun; [|injection Hrun as <-; by apply elem_of_nil in Hin].
  unfold ret in Hrun. injection Hrun as <-.
  apply elem_of_elements in Hin.
  eapply Hinv; [|exact Hfold|exact Hin].
  intros x Hx. by apply elem_of_empty in Hx.
Qed.

Lemma listed_names_have_no_slash_witness :
  has_slash "manual.pdf" = false.
Proof.
  apply (listed_names_have_no_slash (sample_env None) after_path_ingest
           ["manual.pdf"] "manual.pdf").
  - vm_compute. reflexivity.
  - left.
Defined.

(** ** Further properties of [delete_file] *)

Lemma delete_file_ok_state (env : Env) (filename : string) (w : World)
    (h : Chroma) :
  live_client env w = Some h ->
  delete_fault env = None ->
  let w' := snd (delete_file env filename w) in
  vector_store w' = vector_store w /\
  indexed w' =
    List.filter (fun e => negb (matches_where "source" (MStr filename) e))
      (indexed w).
Proof.
  intros Hlive Hdel w'. subst w'.
  rewrite delete_file_cases, Hlive, Hdel. simpl. split; [done|].
  unfold indexed at 1, target_directory. simpl. apply stored_insert.
Qed.

(** Without a usable client, or when the store call fails, the state stays
    as it was. *)
Lemma delete_file_no_effect (env : Env) (filename : string) (w : World) :
  live_client env w = None \/ delete_fault env <> None ->
  snd (delete_file env filename w) = w.
Proof.
  intros Hcase. rewrite delete_file_cases.
  destruct (live_client env w); [|done].
  destruct (delete_fault env); [done|].
  by destruct Hcase.
Qed.

Lemma forallb_metadata_filter (f : option Metadata -> bool)
    (g : IndexEntry -> bool) (entries : Collection) :
  forallb f (map entry_metadata entries) = true ->
  forallb f (map entry_metadata (List.filter g entries)) = true.
Proof.
  induction entries as [|e rest IH]; simpl; [done|].
  intros [He Hrest]%andb_prop.
  destruct (g e); simpl; [rewrite He|]; by apply IH.
Qed.

Lemma plain_source_basename (entries : Collection) (e : IndexEntry) (p : string) :
  forallb plain_source (map entry_metadata entries) = true ->
  e ∈ entries -> source_of e = Some (MStr p) -> basename p = p.
Proof.
  intros Hall He Hsrc.
  rewrite forallb_forall in Hall.
  specialize (Hall (entry_metadata e)).
  unfold plain_source in Hall. unfold source_of in Hsrc. rewrite Hsrc in Hall.
  apply has_slash_false_basename, negb_true_iff, Hall, in_map.
  by apply list_elem_of_In.
Qed.

Lemma not_matches_where_source (filename : string) (e : IndexEntry) :
  negb (matches_where "source" (MStr filename) e) = true <->
  source_of e <> Some (MStr filename).
Proof.
  rewrite negb_true_iff, <- matches_where_source.
  by destruct (matches_where "source" (MStr filename) e).
Qed.

(** X3: in a store whose [source] values are bare file names, deleting a
    file name takes exactly that name off the listing: afterwards the
    listing holds the names it held before, except the deleted one. *)
Theorem delete_file_unlists (env : Env) (filename : string) (w : World)
    (h : Chroma) :
  live_client env w = Some h ->
  delete_fault env = None ->
  get_fault env = None ->
  forallb text_source (map entry_metadata (indexed w)) = true ->
  forallb plain_source (map entry_metadata (indexed w)) = true ->
  exists before after,
    fst (get_ingested_files env w) = Return before /\
    fst (get_ingested_files env (snd (delete_file env filename w))) = Return after /\
    forall f, f ∈ after <-> f ∈ before /\ f <> filename.
Proof.
  intros Hlive Hdel Hget Htext Hplain.
  pose proof (live_client_Some env w h Hlive) as Hvs.
  destruct (delete_file_ok_state env filename w h Hlive Hdel) as [Hvs' Hidx'].
  rewrite Hvs in Hvs'.
  exists (elements (listed (map entry_metadata (indexed w)))),
         (elements (listed (map entry_metadata
                              (indexed (snd (delete_file env filename w)))))).
  split; [by erewrite get_ingested_files_value|].
  split.
  { erewrite get_ingested_files_value; [done|exact Hvs'|done|].
    rewrite Hidx'. by apply forallb_metadata_filter. }
  intros f. rewrite !elem_of_elements, !elem_of_listed, Hidx'. split.
  - intros (meta & p & Hin & Hs & Hb).
    apply list_elem_of_In, in_map_iff in Hin as (e & <- & He).
    apply filter_In in He as [He Hkeep].
    apply list_elem_of_In in He.
    apply not_matches_where_source in Hkeep.
    split.
    + exists (entry_metadata e), p. split; [|done].
      apply list_elem_of_In, in_map. by apply list_elem_of_In.
    + rewrite <- Hb, (plain_source_basename (indexed w) e p) by done.
      intros ->. by apply Hkeep.
  - intros [(meta & p & Hin & Hs & Hb) Hne].
    apply list_elem_of_In, in_map_iff in Hin as (e & <- & He).
    exists (entry_metadata e), p. split; [|done].
    apply list_elem_of_In, in_map, filter_In. split; [done|].
    apply not_matches_where_source. unfold source_of. rewrite Hs.
    intros [= ->]. apply Hne. rewrite <- Hb.
    apply (plain_source_basename (indexed w) e filename); [done| |done].
    by apply list_elem_of_In.
Qed.

Lemma delete_file_unlists_witness :
  exists before after,
    fst (get_ingested_files (sample_env None) after_ingest) = Return before /\
    fst (get_ingested_files (sample_env None)
           (snd (delete_file (sample_env None) "manual.pdf" after_ingest)))
      = Return after /\
    forall f, f ∈ after <-> f ∈ before /\ f <> "manual.pdf".
Proof.
  apply (delete_file_unlists (sample_env None) "manual.pdf" after_ingest
           (mkChroma PERSIST_DIRECTORY)).
  - reflexivity.
  - reflexivity.
  - reflexivity.
  - vm_compute. reflexivity.
  - vm_compute. reflexivity.
Defined.

(** X4: an entry whose [source] is a path is listed under the base name of
    the path, and deleting that listed name does not remove it: the entry is
    still in the store and the name is still listed afterwards. *)
Theorem delete_listed_name_keeps_path_entries (env : Env) (w : World)
    (h : Chroma) (e : IndexEntry) (p : string) :
  vector_store w = Some h ->
  get_fault env = None ->
  forallb text_source (map entry_metadata (indexed w)) = true ->
  e ∈ indexed w ->
  source_of e = Some (MStr p) ->
  has_slash p = true ->
  let w' := snd (delete_file env (basename p) w) in
  e ∈ indexed w' /\
  exists before after,
    fst (get_ingested_files env w) = Return before /\
    fst (get_ingested_files env w') = Return after /\
    basename p ∈ before /\ basename p ∈ after.
Proof.
  intros Hvs Hget Htext He Hsrc Hslash w'.
  assert (vector_store w' = Some h /\ e ∈ indexed w' /\
          forallb text_source (map entry_metadata (indexed w')) = true)
    as (Hvs' & He' & Htext').
  { destruct (live_client env w) as [h'|] eqn:Hlive;
      [destruct (delete_fault env) as [err|] eqn:Hdel|].
    - subst w'. rewrite delete_file_no_effect; [done|].
      right. by rewrite Hdel.
    - destruct (delete_file_ok_state env (basename p) w h' Hlive Hdel)
        as [Hvs' Hidx'].
      fold w' in Hvs', Hidx'. rewrite Hvs', Hidx'. split; [done|]. split.
      + apply list_elem_of_In, filter_In. split; [by apply list_elem_of_In|].
        apply not_matches_where_source. rewrite Hsrc. intros [= Heq].
        by apply (basename_slash_differs p).
      + by apply forallb_metadata_filter.
    - subst w'. rewrite delete_file_no_effect; [done|by left]. }
  split; [done|].
  exists (elements (listed (map entry_metadata (indexed w)))),
         (elements (listed (map entry_metadata (indexed w')))).
  split; [by erewrite get_ingested_files_value|].
  split; [by erewrite get_ingested_files_value|].
  rewrite !elem_of_elements, !elem_of_listed.
  split; exists (entry_metadata e), p;
    (split; [apply list_elem_of_In, in_map; by apply list_elem_of_In|done]).
Qed.

Lemma delete_listed_name_keeps_path_entries_witness :
  let e := mkEntry "Compression reduces dynamic range."
             (Some (<["source" := MStr "manuals/manual.pdf"]>
                      (<["page" := MInt 0]> ∅))) [] in
  let w' := snd (delete_file (sample_env None) (basename "manuals/manual.pdf")
                   after_path_ingest) in
  e ∈ indexed w' /\
  exists before after,
    fst (get_ingested_files (sample_env None) after_path_ingest) = Return before /\
    fst (get_ingested_files (sample_env None) w') = Return after /\
    basename "manuals/manual.pdf" ∈ before /\
    basename "manuals/manual.pdf" ∈ after.
Proof.
  apply (delete_listed_name_keeps_path_entries (sample_env None)
           after_path_ingest (mkChroma PERSIST_DIRECTORY)).
  - reflexivity.
  - reflexivity.
  - vm_compute. reflexivity.
  - vm_compute. left.
  - vm_compute. reflexivity.
  - reflexivity.
Defined.

Lemma filter_all_match {A} (f : A -> bool) (l : list A) :
  (forall x, In x l -> f x = true) ->
  List.filter (fun x => negb (f x)) l = [].
Proof.
  induction l as [|x l IH]; simpl; [done|].
  intros Hall. rewrite (Hall x) by by left. simpl.
  apply IH. intros y Hy. apply Hall. by right.
Qed.

(** X5: ingesting a PDF under a non-empty file name that the store does not
    hold yet and then deleting that file name gives back the store as it
    was: every entry of the document goes, no other entry is touched. *)
Theorem ingest_then_delete_restores (env : Env) (file_path name : string)
    (docs : list Document) (w : World) :
  truthy_str (Some name) = true ->
  never_ingested name w = true ->
  pdf_load env file_path = Return docs ->
  add_fault env (chunks_of env (Some name) docs) = None ->
  delete_fault env = None ->
  let w1 := snd (ingest_pdf env file_path (Some name) w) in
  indexed (snd (delete_file env name w1)) = indexed w.
Proof.
  intros Hname Hnever Hload Hadd Hdel w1.
  destruct (ingest_pdf_ok_state env file_path (Some name) docs w Hload Hadd)
    as (Hvs1 & _ & Hidx1).
  fold w1 in Hvs1, Hidx1.
  destruct (live_client_cases env w1 _ Hvs1) as [Hlive | [Hlive Hnil]].
  - destruct (delete_file_ok_state env name w1 _ Hlive Hdel) as [_ ->].
    rewrite Hidx1, List.filter_app.
    rewrite filter_nothing_matches
      by (unfold never_ingested in Hnever; by apply negb_true_iff in Hnever).
    rewrite filter_all_match; [by rewrite app_nil_r|].
    intros e He. apply matches_where_source.
    eapply created_entries_source; [done|]. apply list_elem_of_In, He.
  - rewrite delete_file_cases, Hlive. simpl.
    rewrite Hnil. rewrite Hidx1 in Hnil.
    by apply app_eq_nil in Hnil as [-> _].
Qed.

Lemma ingest_then_delete_restores_witness :
  indexed (snd (delete_file (sample_env None) "manual-v2.pdf"
                  (snd (ingest_pdf (sample_env None) manual_tmp_again
                          (Some "manual-v2.pdf") after_ingest))))
    = indexed after_ingest.
Proof.
  apply (ingest_then_delete_restores (sample_env None) manual_tmp_again
           "manual-v2.pdf"
           [loaded_page manual_tmp_again "Compression reduces dynamic range." 0]
           after_ingest).
  - reflexivity.
  - vm_compute. reflexivity.
  - reflexivity.
  - reflexivity.
  - reflexivity.
Defined.

Lemma filter_twice {A} (f : A -> bool) (l : list A) :
  List.filter f (List.filter f l) = List.filter f l.
Proof.
  induction l as [|x l IH]; simpl; [done|].
  destruct (f x) eqn:Hx; simpl; [rewrite Hx|]; by rewrite ?IH.
Qed.

(** X6: deleting the same file name a second time changes nothing in the
    store: when the store performs the deletions, the entries after the
    second [delete_file] are the entries after the first. *)
Theorem delete_file_twice (env : Env) (filename : string) (w : World) :
  delete_fault env = None ->
  let w1 := snd (delete_file env filename w) in
  indexed (snd (delete_file env filename w1)) = indexed w1.
Proof.
  intros Hdel w1.
  destruct (live_client env w1) as [h1|] eqn:Hlive1;
    [|rewrite delete_file_no_effect; [done|by left]].
  destruct (delete_file_ok_state env filename w1 h1 Hlive1 Hdel) as [_ ->].
  destruct (live_client env w) as [h|] eqn:Hlive.
  - destruct (delete_file_ok_state env filename w h Hlive Hdel) as [_ Hidx1].
    fold w1 in Hidx1. rewrite Hidx1. apply filter_twice.
  - assert (w1 = w) as Hsame by (apply delete_file_no_effect; by left).
    rewrite Hsame in Hlive1. congruence.
Qed.

Lemma delete_file_twice_witness :
  let w1 := snd (delete_file (sample_env None) "manual.pdf" after_ingest) in
  indexed (snd (delete_file (sample_env None) "manual.pdf" w1)) = indexed w1.
Proof.
  apply (delete_file_twice (sample_env None) "manual.pdf" after_ingest).
  reflexivity.
Defined.

(** ** Further properties of ingestion *)

(** X7: every index entry [ingest_pdf] creates is a chunk of one loaded
    page, cut by the splitter configured with chunk size 1000 and overlap
    200, embedded by the embedding provider, and it keeps every metadata
    value of that page other than [source] (the page number, for one). *)
Theorem created_entries_keep_page_metadata (env : Env)
    (original_filename : option string) (docs : list Document)
    (e : IndexEntry) :
  e ∈ map (entry_of env) (chunks_of env original_filename docs) ->
  exists d t,
    d ∈ docs /\
    t ∈ split_text env 1000 200 (page_content d) /\
    entry_text e = t /\
    entry_embedding e = embed env t /\
    forall key, key <> "source" -> entry_lookup key e = metadata d !! key.
Proof.
  intros He.
  apply list_elem_of_In, in_map_iff in He as (c & <- & Hc).
  unfold chunks_of, split_documents in Hc.
  apply in_flat_map in Hc as (d' & Hd' & Hc).
  apply in_map_iff in Hc as (t & <- & Ht).
  apply in_map_iff in Hd' as (d & <- & Hd).
  rewrite stamp_source_page_content in Ht.
  exists d, t. repeat split; try by apply list_elem_of_In.
  intros key Hkey. unfold entry_lookup, entry_of. simpl.
  assert (metadata (stamp_source original_filename d) !! key = metadata d !! key)
    as Hsame.
  { unfold stamp_source. destruct (truthy_str original_filename); [|done].
    simpl. by apply lookup_insert_ne. }
  destruct (decide (metadata (stamp_source original_filename d) = ∅)) as [Hempty|_];
    [|done].
  by rewrite <- Hsame, Hempty, lookup_empty.
Qed.

Lemma created_entries_keep_page_metadata_witness :
  exists d t,
    d ∈ [loaded_page manual_tmp "Compression reduces dynamic range." 0] /\
    t ∈ split_text (sample_env None) 1000 200 (page_content d) /\
    entry_text (entry_of (sample_env None)
                  (mkDocument "Compression reduces dynamic range."
                     (<["source" := MStr "manual.pdf"]>
                        (<["source" := MStr manual_tmp]> (<["page" := MInt 0]> ∅)))))
      = t /\
    entry_embedding (entry_of (sample_env None)
                  (mkDocument "Compression reduces dynamic range."
                     (<["source" := MStr "manual.pdf"]>
                        (<["source" := MStr manual_tmp]> (<["page" := MInt 0]> ∅)))))
      = embed (sample_env None) t /\
    forall key, key <> "source" ->
      entry_lookup key (entry_of (sample_env None)
                  (mkDocument "Compression reduces dynamic range."
                     (<["source" := MStr "manual.pdf"]>
                        (<["source" := MStr manual_tmp]> (<["page" := MInt 0]> ∅)))))
      = metadata d !! key.
Proof.
  apply (created_entries_keep_page_metadata (sample_env None) (Some "manual.pdf")
           [loaded_page manual_tmp "Compression reduces dynamic range." 0]).
  simpl. left.
Defined.

Lemma upload_loop_cons (env : Env) (file : UploadedFile)
    (rest : list UploadedFile) (w : World) :
  upload_loop env (file :: rest) w =
  upload_loop env rest (snd (ingest_pdf env (tmp_path file) (Some (name file)) w)).
Proof.
  unfold upload_loop. simpl. unfold bind at 1 2.
  destruct (ingest_pdf_returns env (tmp_path file) (Some (name file)) w)
    as [msg Hmsg].
  destruct (ingest_pdf env (tmp_path file) (Some (name file)) w) as [o w1].
  simpl in *. by subst o.
Qed.

(** X8: with a store that takes every batch, the upload loop leaves the
    store holding what it held before, followed by the entries of the files
    of the batch in upload order; a file that cannot be loaded contributes
    nothing and does not keep the later files out. *)
Theorem upload_loop_appends_in_order (env : Env)
    (uploaded_files : list UploadedFile) (w : World) :
  (forall chunks, add_fault env chunks = None) ->
  indexed (snd (upload_loop env uploaded_files w))
    = indexed w ++ flat_map (file_entries env) uploaded_files.
Proof.
  intros Hadd. revert w.
  induction uploaded_files as [|file rest IH]; intros w.
  - simpl. by rewrite app_nil_r.
  - rewrite upload_loop_cons, IH. simpl. rewrite app_assoc. f_equal.
    unfold file_entries.
    destruct (pdf_load env (tmp_path file)) as [docs|e] eqn:Hload.
    + by destruct (ingest_pdf_ok_state env (tmp_path file) (Some (name file))
                     docs w Hload (Hadd _)) as (_ & _ & ->).
    + rewrite ingest_pdf_cases, Hload. simpl. by rewrite app_nil_r.
Qed.

Lemma upload_loop_appends_in_order_witness :
  let batch := [mkUploadedFile "broken.pdf" "/tmp/tmpzz99.pdf";
                mkUploadedFile "manual.pdf" manual_tmp;
                mkUploadedFile "manual-v2.pdf" manual_tmp_again] in
  indexed (snd (upload_loop (sample_env None) batch fresh))
    = indexed fresh ++ flat_map (file_entries (sample_env None)) batch.
Proof.
  apply (upload_loop_appends_in_order (sample_env None)).
  intros chunks. reflexivity.
Defined.

(** ** The client and the persisted directory *)

Lemma boot_fs (files : gmap string Collection) : fs (boot files) = files.
Proof.
  unfold boot, __init__, _init_vector_store, bind, set_vector_store,
    os_path_exists, Chroma_open, ret. simpl.
  by destruct (bool_decide (is_Some (files !! PERSIST_DIRECTORY))).
Qed.

Lemma bound_target_directory (w : World) :
  bound_to_persist_directory w = true -> target_directory w = PERSIST_DIRECTORY.
Proof.
  unfold bound_to_persist_directory, target_directory.
  destruct (vector_store w) as [h|]; [|done].
  intros [Hdir _]%andb_prop. by apply bool_decide_eq_true in Hdir.
Qed.

Lemma bound_after_insert (w : World) (c : Collection) (log : list call) :
  bound_to_persist_directory
    (mkWorld (Some (mkChroma PERSIST_DIRECTORY))
       (<[PERSIST_DIRECTORY := c]> (fs w)) log) = true.
Proof.
  unfold bound_to_persist_directory. simpl.
  rewrite bool_decide_eq_true_2; [done|].
  rewrite lookup_insert_eq. by eexists.
Qed.

(** X9: the engine keeps its client and the persisted directory together:
    from construction on, and through [ingest_pdf], [delete_file],
    [clear_database], the listing, [get_chain] and a run of the pipeline,
    the client, when there is one, is bound to the configured directory, and
    that directory exists. *)
Theorem client_stays_bound (env : Env) (w : World)
    (files : gmap string Collection) (file_path filename : string)
    (original_filename : option string) (h : Chroma) (x : ChainInput) :
  bound_to_persist_directory (boot files) = true /\
  (bound_to_persist_directory w = true ->
   bound_to_persist_directory (snd (ingest_pdf env file_path original_filename w)) = true /\
   bound_to_persist_directory (snd (delete_file env filename w)) = true /\
   bound_to_persist_directory (snd (clear_database env w)) = true /\
   bound_to_persist_directory (snd (get_ingested_files env w)) = true /\
   bound_to_persist_directory (snd (get_chain env w)) = true /\
   bound_to_persist_directory (snd (rag_chain env h x w)) = true).
Proof.
  split.
  - unfold bound_to_persist_directory.
    rewrite boot_vector_store, boot_fs.
    by destruct (bool_decide (is_Some (files !! PERSIST_DIRECTORY))) eqn:Hex.
  - intros Hbound.
    pose proof (bound_target_directory w Hbound) as Hdir.
    split; [|split; [|split; [|split; [|split]]]].
    + rewrite ingest_pdf_cases.
      destruct (pdf_load env file_path) as [docs|e]; [|done]. simpl.
      destruct (add_fault env _); [done|]. simpl.
      rewrite Hdir. apply bound_after_insert.
    + rewrite delete_file_cases.
      destruct (live_client env w) as [h'|] eqn:Hlive; [|done].
      destruct (delete_fault env); [done|]. simpl.
      pose proof (live_client_Some env w h' Hlive) as Hvs.
      rewrite Hvs, Hdir.
      unfold bound_to_persist_directory in Hbound. rewrite Hvs in Hbound.
      apply andb_prop in Hbound as [Hh _]. apply bool_decide_eq_true in Hh.
      destruct h' as [d]. simpl in Hh. subst d. apply bound_after_insert.
    + unfold clear_database, bind, os_path_exists, try_except, set_vector_store,
        shutil_rmtree.
      destruct (bool_decide (is_Some (fs w !! PERSIST_DIRECTORY))); [|done].
      simpl. by destruct (rmtree_fault env).
    + destruct w as [v f c].
      destruct (get_ingested_files_reads env v f c) as (names & _ & Hrun).
      by rewrite Hrun.
    + by rewrite get_chain_cases.
    + pose proof (rag_chain_cases env h x w) as Hcases. simpl in Hcases.
      rewrite Hcases.
      destruct (generate env LLM_MODEL (reformulation_messages x)); [|done].
      by destruct (similarity_search env _ _ 4).
Qed.

Lemma client_stays_bound_witness :
  bound_to_persist_directory
    (snd (delete_file (sample_env None) "manual.pdf" after_ingest)) = true.
Proof.
  destruct (client_stays_bound (sample_env None) after_ingest ∅ manual_tmp
              "manual.pdf" None (mkChroma PERSIST_DIRECTORY)
              (mkChainInput "q" [])) as [_ Hkept].
  destruct Hkept as (_ & Hdelete & _); [reflexivity|].
  exact Hdelete.
Defined.

(** X10: constructing the engine again over the same directories reopens the
    store: a client that was there is there again with the same entries and
    the same names in its listing; and when the persisted directory exists
    the new engine has a client whatever the old attribute was, so a restart
    undoes the [None] a failed [clear_database] left. *)
Theorem restart_reopens_store (env : Env) (w : World) :
  bound_to_persist_directory w = true ->
  let w' := boot (fs w) in
  fs w' = fs w /\
  (is_Some (fs w !! PERSIST_DIRECTORY) ->
   vector_store w' = Some (mkChroma PERSIST_DIRECTORY) /\
   indexed w' = stored PERSIST_DIRECTORY (fs w)) /\
  (vector_store w <> None ->
   vector_store w' = vector_store w /\
   indexed w' = indexed w /\
   exists files files',
     fst (get_ingested_files env w) = Return files /\
     fst (get_ingested_files env w') = Return files' /\
     forall x, x ∈ files' <-> x ∈ files).
Proof.
  intros Hbound w'.
  assert (fs w' = fs w) as Hfs by apply boot_fs.
  assert (is_Some (fs w !! PERSIST_DIRECTORY) ->
          vector_store w' = Some (mkChroma PERSIST_DIRECTORY)) as Hopen.
  { intros Hdir. subst w'. rewrite boot_vector_store.
    by rewrite bool_decide_eq_true_2. }
  split; [done|]. split.
  - intros Hdir. split; [by apply Hopen|].
    unfold indexed, target_directory. by rewrite (Hopen Hdir), Hfs.
  - intros Hvs.
    destruct (vector_store w) as [[d]|] eqn:Hh; [|done].
    unfold bound_to_persist_directory in Hbound. rewrite Hh in Hbound.
    apply andb_prop in Hbound as [Hd Hdir].
    apply bool_decide_eq_true in Hd, Hdir. simpl in Hd. subst d.
    assert (w' = mkWorld (vector_store w) (fs w) []) as ->.
    { destruct w' as [v' f' c'] eqn:Hw'. simpl in Hfs.
      pose proof (Hopen Hdir) as Hv'. simpl in Hv'.
      assert (c' = []) as ->.
      { assert (calls w' = []) as Hc.
        { subst w'. unfold boot, __init__, _init_vector_store, bind,
            set_vector_store, os_path_exists, Chroma_open, ret. simpl.
          by destruct (bool_decide _). }
        by rewrite Hw' in Hc. }
      by rewrite Hh, Hv', Hfs. }
    split; [done|]. split; [by unfold indexed, target_directory|].
    destruct w as [v f c]. simpl in *.
    destruct (get_ingested_files_reads env v f c) as (names & _ & Hrun).
    exists names, names. by rewrite !Hrun.
Qed.

Lemma restart_reopens_store_witness :
  vector_store (boot (fs after_failed_clear)) = Some (mkChroma PERSIST_DIRECTORY) /\
  indexed (boot (fs after_failed_clear))
    = stored PERSIST_DIRECTORY (fs after_failed_clear).
Proof.
  destruct (restart_reopens_store (sample_env None) after_failed_clear)
    as (_ & Hopen & _); [reflexivity|].
  apply Hopen. vm_compute. by eexists.
Defined.

(** X11: after a [clear_database] whose [rmtree] succeeded the engine is as
    on a first run: the message says so, the attribute is [None], the
    directory is gone and no other directory is touched; [get_chain] answers
    [None], the listing is empty, [delete_file] answers that the database is
    not initialised, and an engine constructed next has no client. *)
Theorem clear_database_resets_engine (env : Env) (w : World) (c : Collection)
    (filename : string) :
  fs w !! PERSIST_DIRECTORY = Some c ->
  rmtree_fault env = None ->
  let w1 := snd (clear_database env w) in
  fst (clear_database env w) = Return "Base de datos borrada correctamente." /\
  vector_store w1 = None /\
  fs w1 !! PERSIST_DIRECTORY = None /\
  (forall d, d <> PERSIST_DIRECTORY -> fs w1 !! d = fs w !! d) /\
  fst (get_chain env w1) = Return None /\
  fst (get_ingested_files env w1) = Return [] /\
  delete_file env filename w1
    = (Return "Error: Base de datos no inicializada.", w1) /\
  vector_store (boot (fs w1)) = None.
Proof.
  intros Hdir Hrm w1.
  assert (w1 = mkWorld None (delete PERSIST_DIRECTORY (fs w)) (calls w)) as Hw1.
  { subst w1. by rewrite (clear_database_ok env w c Hdir Hrm). }
  assert (live_client env w1 = None) as Hlive
    by (unfold live_client; by rewrite Hw1).
  split; [by rewrite (clear_database_ok env w c Hdir Hrm)|].
  split; [by rewrite Hw1|].
  split; [rewrite Hw1; apply lookup_delete_eq|].
  split; [intros d Hd; rewrite Hw1; by apply lookup_delete_ne|].
  split; [by rewrite get_chain_cases, Hlive|].
  split; [by rewrite Hw1|].
  split; [by rewrite delete_file_cases, Hlive|].
  rewrite boot_vector_store, Hw1. simpl. rewrite lookup_delete_eq.
  rewrite bool_decide_eq_false_2; [done|]. by intros [c' Hc'].
Qed.

Lemma clear_database_resets_engine_witness :
  let w1 := snd (clear_database (sample_env None) after_ingest) in
  fst (clear_database (sample_env None) after_ingest)
    = Return "Base de datos borrada correctamente." /\
  vector_store w1 = None /\
  fs w1 !! PERSIST_DIRECTORY = None /\
  (forall d, d <> PERSIST_DIRECTORY -> fs w1 !! d = fs after_ingest !! d) /\
  fst (get_chain (sample_env None) w1) = Return None /\
  fst (get_ingested_files (sample_env None) w1) = Return [] /\
  delete_file (sample_env None) "manual.pdf" w1
    = (Return "Error: Base de datos no inicializada.", w1) /\
  vector_store (boot (fs w1)) = None.
Proof.
  apply (clear_database_resets_engine (sample_env None) after_ingest
           (indexed after_ingest) "manual.pdf").
  - vm_compute. reflexivity.
  - reflexivity.
Defined.

(** ** Further properties of the pipeline *)

(** X12: a run of the pipeline never changes the client or the store; it
    calls the model at most twice and searches at most once, and a run that
    returns an answer made exactly the three calls. *)
Theorem rag_chain_only_reads (env : Env) (h : Chroma) (x : ChainInput)
    (w : World) :
  let w' := snd (rag_chain env h x w) in
  vector_store w' = vector_store w /\
  fs w' = fs w /\
  exists new,
    calls w' = calls w ++ new /\
    length (List.filter is_llm_call new) <= 2 /\
    length (List.filter (fun c => negb (is_llm_call c)) new) <= 1 /\
    ((exists answer, fst (rag_chain env h x w) = Return answer) ->
     length new = 3).
Proof.
  pose proof (rag_chain_cases env h x w) as Hcases. simpl in Hcases.
  simpl. rewrite Hcases. clear Hcases.
  destruct (generate env LLM_MODEL (reformulation_messages x)) as [q|e]; simpl.
  - destruct (similarity_search env _ q 4) as [docs|e]; simpl.
    + repeat split. eexists. split; [done|]. simpl. repeat split; lia.
    + repeat split. eexists. split; [done|]. simpl.
      repeat split; try lia. by intros [answer Ha].
  - repeat split. eexists. split; [done|]. simpl.
    repeat split; try lia. by intros [answer Ha].
Qed.

(** ** The chat view *)

Lemma respond_cases (env : Env) (messages : list ChatMessage) (w : World) :
  respond env messages w =
  match last messages with
  | Some m =>
      if String.eqb (role m) "user" then
        match live_client env w with
        | Some h =>
            let run := rag_chain env h
                         (mkChainInput (content m)
                            (map to_langchain (removelast messages))) w in
            (Return (messages ++
                     [mkChatMessage "assistant"
                        match fst run with
                        | Return answer => answer
                        | Raise e => "⚠️ Error: " +:+ e
                        end]),
             snd run)
        | None =>
            (Return (messages ++ [mkChatMessage "assistant" library_empty_message]),
             w)
        end
      else (Return messages, w)
  | None => (Return messages, w)
  end.
Proof.
  unfold respond. destruct (last messages) as [m|]; [|done].
  destruct (String.eqb (role m) "user"); [|done].
  unfold bind at 1. rewrite get_chain_cases.
  destruct (live_client env w) as [h|]; [|done].
  unfold bind, try_except, ret. simpl.
  by destruct (rag_chain env h _ w) as [[answer|e] w'].
Qed.

(** X13: the response step never raises and never changes the client or
    the store.  When the last message is the user's it appends exactly one
    assistant message and leaves the earlier messages as they are; otherwise
    (no message yet, or an answer already given) it does nothing. *)
Theorem respond_appends_one_answer (env : Env) (messages : list ChatMessage)
    (w : World) :
  vector_store (snd (respond env messages w)) = vector_store w /\
  fs (snd (respond env messages w)) = fs w /\
  exists out,
    fst (respond env messages w) = Return out /\
    ((exists m reply,
        last messages = Some m /\ role m = "user" /\
        out = messages ++ [mkChatMessage "assistant" reply])
     \/
     ((last messages = None \/
       exists m, last messages = Some m /\ role m <> "user") /\
      out = messages /\ snd (respond env messages w) = w)).
Proof.
  rewrite respond_cases.
  destruct (last messages) as [m|] eqn:Hlast.
  - destruct (String.eqb (role m) "user") eqn:Hrole.
    + apply String.eqb_eq in Hrole.
      destruct (live_client env w) as [h|].
      * simpl.
        pose proof (rag_chain_cases env h
                      (mkChainInput (content m)
                         (map to_langchain (removelast messages))) w) as Hc.
        simpl in Hc. rewrite Hc.
        destruct (generate env LLM_MODEL _) as [q|e]; simpl;
          [destruct (similarity_search env _ q 4) as [docs|e]; simpl|];
          (split; [done|split; [done|]]); eexists; (split; [done|]);
          left; by eexists _, _.
      * simpl. split; [done|]. split; [done|]. eexists. split; [done|].
        left. by eexists _, _.
    + apply String.eqb_neq in Hrole. simpl.
      split; [done|]. split; [done|]. eexists. split; [done|].
      right. split; [|done]. right. by exists m.
  - simpl. split; [done|]. split; [done|]. eexists. split; [done|].
    right. split; [by left|done].
Qed.





(** X16: when the model fails on the reformulation call, the fault does not
    leave the response step: the assistant's message is the warning text with
    the fault, and the store was never searched (the one call logged is the
    failed call of the model). *)
Theorem respond_reports_model_fault (env : Env) (turns : list ChatMessage)
    (question : string) (w : World) (h : Chroma) (e : string) :
  live_client env w = Some h ->
  generate env LLM_MODEL
    (SystemMessage contextualize_q_system_prompt
       :: map to_langchain turns ++ [HumanMessage question]) = Raise e ->
  respond env (turns ++ [mkChatMessage "user" question]) w =
    (Return (turns ++ [mkChatMessage "user" question;
                       mkChatMessage "assistant" ("⚠️ Error: " +:+ e)]),
     mkWorld (vector_store w) (fs w)
       (calls w ++
        [LlmCall LLM_MODEL
           (SystemMessage contextualize_q_system_prompt
              :: map to_langchain turns ++ [HumanMessage question])])).
Proof.
  intros Hlive Hfault. rewrite respond_cases, last_snoc, Hlive. simpl.
  rewrite removelast_last.
  pose proof (rag_chain_cases env h
                (mkChainInput question (map to_langchain turns)) w) as Hc.
  simpl in Hc. unfold reformulation_messages in Hc. simpl in Hc.
  rewrite Hfault in Hc. rewrite Hc. simpl. by rewrite <- app_assoc.
Qed.

Lemma respond_reports_model_fault_witness :
  respond offline_env ([] ++ [mkChatMessage "user" "What is compression?"])
    after_ingest =
    (Return ([] ++ [mkChatMessage "user" "What is compression?";
                    mkChatMessage "assistant" "⚠️ Error: Connection refused"]),
     mkWorld (vector_store after_ingest) (fs after_ingest)
       (calls after_ingest ++
        [LlmCall LLM_MODEL
           (SystemMessage contextualize_q_system_prompt
              :: map to_langchain [] ++ [HumanMessage "What is compression?"])])).
Proof.
  apply (respond_reports_model_fault offline_env [] "What is compression?"
           after_ingest (mkChroma PERSIST_DIRECTORY) "Connection refused").
  - reflexivity.
  - reflexivity.
Defined.

(** X17: once the response step has run, running it again on what it
    returned does nothing: the script may be rerun any number of times and a
    question is answered once. *)
Theorem respond_answers_once (env : Env) (messages out : list ChatMessage)
    (w : World) :
  fst (respond env messages w) = Return out ->
  respond env out (snd (respond env messages w))
    = (Return out, snd (respond env messages w)).
Proof.
  intros Hout.
  assert (respond env messages w = (Return messages, w) /\ out = messages \/
          exists reply, out = messages ++ [mkChatMessage "assistant" reply])
    as [[Hsame ->] | [reply ->]].
  { rewrite respond_cases in Hout |- *.
    destruct (last messages) as [m|]; [|left; split; [done|]; simpl in Hout; congruence].
    destruct (String.eqb (role m) "user");
      [|left; split; [done|]; simpl in Hout; congruence].
    right. destruct (live_client env w); simpl in Hout;
      injection Hout as <-; by eexists. }
  - by rewrite !Hsame.
  - by rewrite (respond_cases env (messages ++ _)), last_snoc.
Qed.

Lemma respond_answers_once_witness :
  let out := sample_chat ++ [mkChatMessage "assistant" "No lo sé."] in
  respond (sample_env None) out (snd (respond (sample_env None) sample_chat after_ingest))
    = (Return out, snd (respond (sample_env None) sample_chat after_ingest)).
Proof.
  apply (respond_answers_once (sample_env None) sample_chat).
  vm_compute. reflexivity.
Defined.

(** An empty or absent prompt adds no message; any other prompt is appended
    as the user's, after which the response step has a question to answer. *)
Example chat_submit_then_respond :
  chat_submit None sample_chat = sample_chat /\
  chat_submit (Some "Hello") [] = [mkChatMessage "user" "Hello"] /\
  fst (respond (sample_env None) (chat_submit (Some "Hello") []) fresh)
    = Return [mkChatMessage "user" "Hello";
              mkChatMessage "assistant" library_empty_message].
Proof. repeat split. Qed.
